(** * dos2unix: the classifier and the rewriter of [lib/dos2unixEventEmitter.js]

    A shallow embedding of the byte-level engine of node-dos2unix:
    [determineProcessingStatusOfFile] (the per-file scan that decides
    good / bad / binary / error), [convertFileFromDosToUnix] (the single
    pass that drops a CR unit in front of an LF unit) and the event-emitting
    pipeline [Dos2UnixConverter.prototype.process]. *)

From Stdlib Require Import List Bool Arith Lia.
From Stdlib Require Strings.String.
From Stdlib Require Import Strings.Byte.
Import ListNotations.

(** ** Buffers *)

(** A Node.js [Buffer] is a sequence of bytes. *)
Definition buffer := list byte.

(** [buffer.slice(s, e)]: the bytes at indices [s .. e-1], clamped to the
    buffer; empty when [e <= s]. *)
Definition slice (s e : nat) (b : buffer) : buffer :=
  firstn (e - s) (skipn s b).

Fixpoint buf_eqb (a b : buffer) : bool :=
  match a, b with
  | [], [] => true
  | x :: a', y :: b' => Byte.eqb x y && buf_eqb a' b'
  | _, _ => false
  end.

(** Is [sig] a prefix of [b]? *)
Fixpoint starts_with (sig b : buffer) : bool :=
  match sig, b with
  | [], _ => true
  | x :: sig', y :: b' => Byte.eqb x y && starts_with sig' b'
  | _ :: _, [] => false
  end.

(** ** The encoder module, [lib/util/encoding.js] *)

(** The BOM variants of the data model. *)
Inductive Bom := BomNone | UTF8 | UTF16LE | UTF16BE | UTF32LE | UTF32BE.

(** A JavaScript argument of BOM type: [None] is [undefined], the value of
    an argument that the caller leaves out and of [bom] in a callback that
    was handed an error. *)
Definition jsbom := option Bom.

(** The functions the engine calls on [encoder].  The module is not part of
    the sources at hand, the engine is written against this interface. *)
Record Encoder := mkEncoder {
  detectBomFromBuffer : buffer -> Bom;
  getBytesPerBom : jsbom -> nat;
  getBytesPerControlChar : jsbom -> nat;
  isByteSequenceCR : buffer -> jsbom -> bool;
  isByteSequenceLF : buffer -> jsbom -> bool;
  doesByteSequenceSuggestBinary : buffer -> jsbom -> bool
}.

Module Encoding.

(** Modelled from the spec: the BOM byte sequences of [lib/util/encoding.js],
    which is missing; the signatures are the standard ones the spec names
    (UTF-8, UTF-16 LE/BE, UTF-32 LE/BE). *)
Definition bomBytes (b : Bom) : buffer :=
  match b with
  | BomNone => []
  | UTF8 => [xef; xbb; xbf]
  | UTF16LE => [xff; xfe]
  | UTF16BE => [xfe; xff]
  | UTF32LE => [xff; xfe; x00; x00]
  | UTF32BE => [x00; x00; xfe; xff]
  end.

(** Modelled from the spec: [detectBomFromBuffer] of the missing
    [lib/util/encoding.js]; signatures are matched "in order of
    specificity", the 4-byte UTF-32 marks before the 2-byte UTF-16 ones,
    and [none] when nothing matches. *)
Definition detectBomFromBuffer (b : buffer) : Bom :=
  if starts_with (bomBytes UTF32BE) b then UTF32BE
  else if starts_with (bomBytes UTF32LE) b then UTF32LE
  else if starts_with (bomBytes UTF8) b then UTF8
  else if starts_with (bomBytes UTF16BE) b then UTF16BE
  else if starts_with (bomBytes UTF16LE) b then UTF16LE
  else BomNone.

(** Modelled from the spec: the value the missing encoder works with when
    its [bom] argument is [undefined]; the spec gives the lookup tables for
    the six variants only, the absent argument is read as "no BOM". *)
Definition variant (b : jsbom) : Bom :=
  match b with
  | Some v => v
  | None => BomNone
  end.

(** Modelled from the spec: [getBytesPerBom] of the missing
    [lib/util/encoding.js], "length of the BOM prefix to skip (0, 3, or 4
    bytes)" and 2 for the UTF-16 marks. *)
Definition getBytesPerBom (b : jsbom) : nat :=
  match variant b with
  | BomNone => 0
  | UTF8 => 3
  | UTF16LE | UTF16BE => 2
  | UTF32LE | UTF32BE => 4
  end.

(** Modelled from the spec: [getBytesPerControlChar] of the missing
    [lib/util/encoding.js], "1 byte for UTF-8/none, 2 for UTF-16, 4 for
    UTF-32". *)
Definition getBytesPerControlChar (b : jsbom) : nat :=
  match variant b with
  | BomNone | UTF8 => 1
  | UTF16LE | UTF16BE => 2
  | UTF32LE | UTF32BE => 4
  end.

(** Modelled from the spec: the encoding-specific representation of a
    control character with code [c] ("for UTF-16-LE, CR = 0x0D 0x00"). *)
Definition controlChar (c : byte) (b : jsbom) : buffer :=
  match variant b with
  | BomNone | UTF8 => [c]
  | UTF16LE => [c; x00]
  | UTF16BE => [x00; c]
  | UTF32LE => [c; x00; x00; x00]
  | UTF32BE => [x00; x00; x00; c]
  end.

(** Modelled from the spec: [isByteSequenceCR] of the missing
    [lib/util/encoding.js], "compares a control-unit-width byte window
    against the encoding-specific representation of \r". *)
Definition isByteSequenceCR (u : buffer) (b : jsbom) : bool :=
  buf_eqb u (controlChar x0d b).

(** Modelled from the spec: [isByteSequenceLF] of the missing
    [lib/util/encoding.js], the same comparison against "\n". *)
Definition isByteSequenceLF (u : buffer) (b : jsbom) : bool :=
  buf_eqb u (controlChar x0a b).

(** Modelled from the spec: [doesByteSequenceSuggestBinary] of the missing
    [lib/util/encoding.js]; the spec leaves the heuristic open and proposes
    "any control unit equal to all-zero bytes", which makes the 1-byte NUL
    unit of a file without BOM binary. *)
Definition doesByteSequenceSuggestBinary (u : buffer) (b : jsbom) : bool :=
  buf_eqb u (controlChar x00 b).

End Encoding.

(** The encoder as the spec describes it. *)
Definition encoding : Encoder :=
  mkEncoder Encoding.detectBomFromBuffer
            Encoding.getBytesPerBom
            Encoding.getBytesPerControlChar
            Encoding.isByteSequenceCR
            Encoding.isByteSequenceLF
            Encoding.doesByteSequenceSuggestBinary.

(** ** Files and the buffered reader *)

(** What a path stands for during one classification: the content of the
    file and the I/O failures that occur while it is processed. *)
Record File := mkFile {
  bytes : buffer;
  (** [encoder.detectBom] hands [err] to its callback. *)
  bomProbeFails : bool;
  (** [Some k]: the reader's [k]-th request (from 0) reports [err]. *)
  readFailsAt : option nat
}.

(** A file that is read without any failure. *)
Definition plain (b : buffer) : File := mkFile b false None.

(** Modelled from the spec: [encoder.detectBom(filePath, function(err, bom)
    ...)] of the missing [lib/util/encoding.js], which "reads the leading
    bytes of the file" and applies the matching of [detectBomFromBuffer];
    when it fails, [bom] is [undefined] in the callback. *)
Definition detectBom (enc : Encoder) (f : File) : jsbom :=
  if bomProbeFails f then None
  else Some (detectBomFromBuffer enc (slice 0 4 (bytes f))).

(** [BinaryReader] of the package buffered-reader, as far as the engine
    uses it: a cursor into the file. *)
Record BinaryReader := mkReader {
  source : File;
  offset : nat;
  requests : nat
}.

Inductive readResult :=
| ReadErr
| ReadOk (data : buffer).

(** [reader.read(n, cb)]: the callback gets [err], or the next bytes, at
    most [n] and fewer only when the file ends, and the cursor moves past
    them. *)
Definition read (n : nat) (r : BinaryReader) : readResult * BinaryReader :=
  match readFailsAt (source r) with
  | Some k =>
      if k =? requests r
      then (ReadErr, mkReader (source r) (offset r) (S (requests r)))
      else
        let data := slice (offset r) (offset r + n) (bytes (source r)) in
        (ReadOk data,
         mkReader (source r) (offset r + length data) (S (requests r)))
  | None =>
      let data := slice (offset r) (offset r + n) (bytes (source r)) in
      (ReadOk data,
       mkReader (source r) (offset r + length data) (S (requests r)))
  end.

(** [reader.isOffsetOutOfWindow()]: the cursor has reached the end. *)
Definition isOffsetOutOfWindow (r : BinaryReader) : bool :=
  length (bytes (source r)) <=? offset r.

(** ** Processing status *)

Inductive Status := good | bad | binary | error.

Definition Status_eqb (a b : Status) : bool :=
  match a, b with
  | good, good | bad, bad | binary, binary | error, error => true
  | _, _ => false
  end.

(** How one asynchronous operation ends: it calls [done(null, status)], or
    no callback is ever scheduled again and [done] is never called. *)
Inductive Outcome :=
| Done (s : Status)
| Pending.

(** ** [determineProcessingStatusOfFile] *)

Section Classifier.

Variable enc : Encoder.
Variable bom : jsbom.

Let bytesPerControlChar := getBytesPerControlChar enc bom.

(** [readCallback] together with the [reader.read] that feeds it: one
    round per control unit.  [fuel] bounds the number of rounds; [None]
    stands for a scan that is still running when the bound is reached. *)
Fixpoint readLoop (fuel : nat) (needsFixing lastByteSequenceWasCR : bool)
         (reader : BinaryReader) : option (Outcome * BinaryReader) :=
  match fuel with
  | 0 => None
  | S fuel' =>
    let '(res, reader) := read bytesPerControlChar reader in
    match res with
    | ReadErr => Some (Done error, reader)
    | ReadOk buffer =>
      let bytesRead := length buffer in
      if bytesRead =? bytesPerControlChar then
        if doesByteSequenceSuggestBinary enc buffer bom then
          Some (Done binary, reader)
        else
          let '(needsFixing, lastByteSequenceWasCR) :=
            if isByteSequenceCR enc buffer bom then (needsFixing, true)
            else
              (if lastByteSequenceWasCR && isByteSequenceLF enc buffer bom
               then true else needsFixing,
               false) in
          if isOffsetOutOfWindow reader then
            let status := good in
            let status :=
              if Status_eqb status good && needsFixing then bad
              else status in
            Some (Done status, reader)
          else readLoop fuel' needsFixing lastByteSequenceWasCR reader
      else if 0 <? bytesRead then Some (Done error, reader)
      else Some (Pending, reader)
    end
  end.

End Classifier.

(** The whole operation on one path.  A scan reads at least one byte per
    round when the control unit is not empty, so [S (length (bytes f))]
    rounds are enough. *)
Definition determineProcessingStatusOfFile (enc : Encoder) (f : File)
  : option (Outcome * BinaryReader) :=
  let bom := detectBom enc f in
  let bytesPerBom := getBytesPerBom enc bom in
  let reader := mkReader f 0 0 in
  let fuel := S (length (bytes f)) in
  if 0 <? bytesPerBom then
    let '(res, reader) := read bytesPerBom reader in
    match res with
    | ReadErr => Some (Done error, reader)
    | ReadOk buffer =>
      if length buffer <? bytesPerBom then Some (Done error, reader)
      else readLoop enc bom fuel false false reader
    end
  else readLoop enc bom fuel false false reader.

(** The status handed to [done], if [done] is called. *)
Definition classify (enc : Encoder) (f : File) : option Outcome :=
  option_map fst (determineProcessingStatusOfFile enc f).

(** The number of bytes the reader has consumed when the scan is over. *)
Definition bytesConsumed (enc : Encoder) (f : File) : option nat :=
  option_map (fun p => offset (snd p)) (determineProcessingStatusOfFile enc f).

(** ** [convertFileFromDosToUnix] *)

(** The stream [fs.createWriteStream(filePath)] opens on the file: the file
    is truncated when the stream is opened, so its content afterwards is
    what was written; [finished] records that [outFile.end] was called,
    which is what makes the stream close and [done] be called. *)
Record WriteStream := mkStream {
  written : buffer;
  finished : bool
}.

Definition createWriteStream : WriteStream := mkStream [] false.

(** [outFile.write(chunk)] *)
Definition write (chunk : buffer) (s : WriteStream) : WriteStream :=
  mkStream (written s ++ chunk) (finished s).

(** [outFile.end(chunk)] *)
Definition end_ (chunk : buffer) (s : WriteStream) : WriteStream :=
  mkStream (written s ++ chunk) true.

Section Rewriter.

Variable enc : Encoder.
Variable buf : buffer.

Let bom := detectBomFromBuffer enc (slice 0 4 buf).
Let bytesPerControlChar := getBytesPerControlChar enc (Some bom).
Let len := length buf.

(** The [for] loop of lines 128-149, one round per test of [b < len].
    Line 130 calls [isByteSequenceCR] with one argument, [bom] is
    [undefined] there; line 134 passes [bom]. *)
Fixpoint convertLoop (fuel b : nat) (lastByteSequenceWasCR : bool)
         (lastWriteIndex : nat) (outFile : WriteStream)
  : option WriteStream :=
  match fuel with
  | 0 => None
  | S fuel' =>
    if b <? len then
      let byteSequence := slice b (b + bytesPerControlChar) buf in
      if isByteSequenceCR enc byteSequence None then
        convertLoop fuel' (b + bytesPerControlChar) true
                    lastWriteIndex outFile
      else if lastByteSequenceWasCR
              && isByteSequenceLF enc byteSequence (Some bom) then
        convertLoop fuel' (b + bytesPerControlChar) false b
                    (write (slice lastWriteIndex (b - bytesPerControlChar) buf)
                           outFile)
      else if b + bytesPerControlChar =? len then
        convertLoop fuel' (b + bytesPerControlChar) false lastWriteIndex
                    (end_ (slice lastWriteIndex (b + bytesPerControlChar) buf)
                          outFile)
      else
        convertLoop fuel' (b + bytesPerControlChar) false
                    lastWriteIndex outFile
    else Some outFile
  end.

End Rewriter.

(** The rewrite of a file whose content [buf] was read by [fs.readFile]:
    the state of the output stream when the loop is over.  The loop tests
    [b < len] at most [S (length buf)] times when the control unit is not
    empty. *)
Definition convertFileFromDosToUnix (enc : Encoder) (buf : buffer)
  : option WriteStream :=
  let bom := detectBomFromBuffer enc (slice 0 4 buf) in
  let bytesPerBom := getBytesPerBom enc (Some bom) in
  convertLoop enc buf (S (length buf)) bytesPerBom false 0 createWriteStream.

(** The content of the file after the rewrite. *)
Definition rewritten (enc : Encoder) (buf : buffer) : option buffer :=
  option_map written (convertFileFromDosToUnix enc buf).

(** ** What the claims speak about: control units and CRLF pairs *)

Section Units.

Variable enc : Encoder.
Variable bom : jsbom.

(** A control unit is a CR, an LF, binary-indicating. *)
Definition isCR (u : buffer) : bool := isByteSequenceCR enc u bom.
Definition isLF (u : buffer) : bool := isByteSequenceLF enc u bom.
Definition isBinary (u : buffer) : bool :=
  doesByteSequenceSuggestBinary enc u bom.

(** A complete control unit. *)
Definition fullUnit (u : buffer) : Prop :=
  length u = getBytesPerControlChar enc bom.

(** Some CR unit is immediately followed by an LF unit. *)
Definition CRLFPair (us : list buffer) : Prop :=
  exists pre u v post,
    us = pre ++ u :: v :: post /\ isCR u = true /\ isLF v = true.

Fixpoint hasCRLF (us : list buffer) : bool :=
  match us with
  | u :: (v :: _) as rest => (isCR u && isLF v) || hasCRLF rest
  | _ => false
  end.

End Units.

(** The content of a file after its BOM, as the scan sees it. *)
Definition payload (enc : Encoder) (f : File) : buffer :=
  skipn (getBytesPerBom enc (detectBom enc f)) (bytes f).

(** ** [Dos2UnixConverter.prototype.process], the event-emitting pipeline *)

Module Pipeline.

Import Strings.String.
Local Open Scope string_scope.

Inductive JsError :=
| ReferenceError (ident : string)
| TypeError (what : string).

Inductive Completion (A : Type) :=
| Normal (a : A)
| Throw (e : JsError).
Arguments Normal {A} a.
Arguments Throw {A} e.

(** An entry of [fileListWithSafetyInfo]: [{ path, status }]. *)
Record FileInfo := mkInfo { path : string; status : Status }.

(** What [emit] hands to the listeners: the event name and, for a
    per-file event, the object [{ file, status, message }]. *)
Inductive Event :=
| FileEvent (name file : string) (st : Status) (message : string)
| BatchEvent (name : string).

(** Code that emits on the converter and may throw: the log of the
    emitted events is threaded through. *)
Definition M (A : Type) : Type := list Event -> Completion A * list Event.

Definition ret {A} (a : A) : M A := fun log => (Normal a, log).
Definition throw {A} (e : JsError) : M A := fun log => (Throw e, log).
Definition bind {A B} (m : M A) (k : A -> M B) : M B :=
  fun log =>
    match m log with
    | (Normal a, log') => k a log'
    | (Throw e, log') => (Throw e, log')
    end.

Notation "x <- m ;; k" := (bind m (fun x => k))
  (at level 61, m at next level, right associativity).
Notation "m ;;; k" := (bind m (fun _ => k))
  (at level 61, right associativity).

(** The value of [this] inside a function body. *)
Inductive Receiver := Undefined | TheConverter.

(** [this.emit(name, payload)] *)
Definition emit (this : Receiver) (e : Event) : M unit :=
  match this with
  | Undefined =>
      throw (TypeError "Cannot read property 'emit' of undefined")
  | TheConverter => fun log => (Normal tt, (log ++ [e])%list)
  end.

(** The names declared at the top level of the module, with those of the
    Node.js module wrapper: what an identifier that is free in a function
    of the module can resolve to. *)
Definition moduleScope : list string :=
  [ "fs"; "util"; "EventEmitter"; "Q"; "BinaryReader"; "encoder";
    "globber"; "validator"; "determineProcessingStatusOfFile";
    "convertFileFromDosToUnix"; "globP";
    "determineProcessingStatusOfFileP"; "convertFileFromDosToUnixP";
    "dos2unix"; "Dos2UnixConverter"; "createD2UEventEmitter";
    "exports"; "require"; "module"; "__filename"; "__dirname";
    "console"; "process" ].

(** Evaluating an identifier in a scope: a [ReferenceError] when nothing
    declares it. *)
Definition reference (scope : list string) (ident : string) : M unit :=
  if existsb (String.eqb ident) scope then ret tt
  else throw (ReferenceError ident).

(** The callback given to [filter] at lines 260-291. *)
Definition announce (this : Receiver) (fileInfo : FileInfo) : M bool :=
  (match status fileInfo with
   | error =>
       emit this (FileEvent "convert.error" (path fileInfo) (status fileInfo)
                            "Skipping file with errors during read")
   | binary =>
       emit this (FileEvent "convert.skip" (path fileInfo) (status fileInfo)
                            "Skipping suspected binary file")
   | good =>
       emit this (FileEvent "convert.skip" (path fileInfo) (status fileInfo)
                            "Skipping file that does not need fixing")
   | bad =>
       emit this (FileEvent "convert.start" (path fileInfo) (status fileInfo)
                            "File needs fixing")
   end) ;;;
  ret (Status_eqb (status fileInfo) bad).

(** [array.filter(callback)]: no [thisArg] is given and the module is in
    strict mode, the callback runs with [this] undefined. *)
Fixpoint filter (callback : Receiver -> FileInfo -> M bool)
         (l : list FileInfo) : M (list FileInfo) :=
  match l with
  | [] => ret []
  | x :: l' =>
      keep <- callback Undefined x ;;
      rest <- filter callback l' ;;
      ret (if keep then x :: rest else rest)
  end.

(** The callbacks of the promise chain, in the order they run once the
    file list is resolved and classified: the filter step, the conversion
    step (it emits nothing) and [function() { done(); }].  The scope of
    [process] declares no name of its own. *)
Definition chain (fileListWithSafetyInfo : list FileInfo) : M unit :=
  needsFixing <- filter announce fileListWithSafetyInfo ;;
  let needsFixingFileList := map path needsFixing in
  reference moduleScope "done".

(** One run of [process]. [call] is how the call [d2u.process()] itself
    completes: the chain is built by evaluating [globP(...)], four times
    [.then(function ...)] and then the argument of [.fail(done)].
    [settled] is how the chain that was built until then ends, and
    [emitted] the events emitted on the converter meanwhile. *)
Record Run := mkRun {
  call : Completion unit;
  settled : Completion unit;
  emitted : list Event
}.

Definition process (fileListWithSafetyInfo : list FileInfo) : Run :=
  let call := fst (reference moduleScope "done" []) in
  let '(settled, log) := chain fileListWithSafetyInfo [] in
  mkRun call settled log.

End Pipeline.

(** What the state machine of [readCallback] computes over a sequence of
    units: [needsFixing] after the units [us], starting with the flag
    [lastCR]. *)
Fixpoint scanFrom (enc : Encoder) (bom : jsbom) (lastCR : bool)
         (us : list buffer) : bool :=
  match us with
  | [] => false
  | u :: us' =>
      (if isCR enc bom u then false else lastCR && isLF enc bom u)
      || scanFrom enc bom (isCR enc bom u) us'
  end.

(** ** Encodings with one-byte control units *)

(** Without BOM and with the UTF-8 BOM a control unit is one byte, CR is
    0D and LF is 0A. *)
Definition isCRbyte (x : byte) : bool := Byte.eqb x x0d.
Definition isLFbyte (x : byte) : bool := Byte.eqb x x0a.

(** The bytes without each CR that an LF follows immediately. *)
Fixpoint strip (l : buffer) : buffer :=
  match l with
  | x :: (y :: _) as t =>
      if isCRbyte x && isLFbyte y then strip t else x :: strip t
  | _ => l
  end.

(** The number of CR bytes that an LF follows immediately. *)
Fixpoint countCRLF (l : buffer) : nat :=
  match l with
  | x :: (y :: _) as t =>
      (if isCRbyte x && isLFbyte y then 1 else 0) + countCRLF t
  | _ => 0
  end.

(** [l] ends with the bytes [s]. *)
Definition EndsWith (s l : buffer) : Prop := exists pre, l = pre ++ s.

(** Some CRLF pair of [l] comes immediately after another CR. *)
Definition CRbeforeCRLF (l : buffer) : Prop :=
  exists pre post, l = pre ++ x0d :: x0d :: x0a :: post.

(** The last unit of [rest] is one at which the rewriter flushes: it is not
    a CR and not the LF of a CRLF pair.  [lastCR] tells whether a CR comes
    immediately before [rest]. *)
Fixpoint properEnd (lastCR : bool) (rest : buffer) : bool :=
  match rest with
  | [] => false
  | x :: rest' =>
      match rest' with
      | [] => negb (isCRbyte x) && negb (lastCR && isLFbyte x)
      | _ :: _ => properEnd (isCRbyte x) rest'
      end
  end.

(** The one-byte units of a sequence of bytes. *)
Definition unitsOfBytes (l : buffer) : list buffer := map (fun x => [x]) l.

(** ** [dos2unix], the batch pipeline *)

Module Batch.

(** What the file system holds while the batch runs: the file a path
    stands for, and whether [fs.readFile] on the path reports [err]. *)
Record Disk := mkDisk {
  fileAt : String.string -> File;
  readFileFails : String.string -> bool
}.

(** A promise that is resolved with a value, or never settled. *)
Definition Promise (A : Type) : Type := option A.

(** [Q.all(promises)]: resolved with the values, in order, when every
    promise is resolved. *)
Fixpoint all {A : Type} (promises : list (Promise A)) : Promise (list A) :=
  match promises with
  | [] => Some []
  | p :: rest =>
      match p, all rest with
      | Some v, Some vs => Some (v :: vs)
      | _, _ => None
      end
  end.

(** [determineProcessingStatusOfFileP = Q.nfbind(determineProcessingStatusOfFile)]:
    resolved with the status handed to [done]. *)
Definition determineProcessingStatusOfFileP (enc : Encoder) (disk : Disk)
           (filePath : String.string) : Promise Status :=
  match classify enc (fileAt disk filePath) with
  | Some (Done status) => Some status
  | _ => None
  end.

(** What one call of [convertFileFromDosToUnix] does to its file: nothing
    when [fs.readFile] fails (lines 108-110, [done] is not called), else
    the stream it opens on the file; [Unending] is a loop that does not
    end. *)
Inductive Conversion :=
| ReadFailed
| Unending
| Opened (outFile : WriteStream).

Definition convert (enc : Encoder) (disk : Disk) (filePath : String.string)
  : Conversion :=
  if readFileFails disk filePath then ReadFailed
  else match convertFileFromDosToUnix enc (bytes (fileAt disk filePath)) with
       | Some outFile => Opened outFile
       | None => Unending
       end.

(** [convertFileFromDosToUnixP]: resolved when the stream is closed, which
    follows [outFile.end]. *)
Definition resolved (c : Conversion) : bool :=
  match c with
  | Opened outFile => finished outFile
  | _ => false
  end.

(** What a run of the batch leaves behind: the conversions that were
    started, in order, and whether [done()] was called. *)
Record Result := mkResult {
  conversions : list (String.string * Conversion);
  doneCalled : bool
}.

(** [dos2unix] from the resolved file list on (lines 174-220): classify
    every file, keep the paths with status [bad], convert each of them,
    then call [done]. *)
Definition dos2unix (enc : Encoder) (disk : Disk)
           (fileList : list String.string) : Result :=
  match all (map (determineProcessingStatusOfFileP enc disk) fileList) with
  | None => mkResult [] false
  | Some safetyList =>
      let fileListWithSafetyInfo :=
        map (fun ps => Pipeline.mkInfo (fst ps) (snd ps))
            (combine fileList safetyList) in
      let needsFixingFileList :=
        map Pipeline.path
            (filter (fun fileInfo => Status_eqb (Pipeline.status fileInfo) bad)
                    fileListWithSafetyInfo) in
      let started :=
        map (fun filePath => (filePath, convert enc disk filePath))
            needsFixingFileList in
      mkResult started (forallb (fun c => resolved (snd c)) started)
  end.

(** A text file the rewriter handles: read without failure, one-byte
    control units, some content after the BOM, no NUL byte, and an end
    that is neither a CR nor a CRLF pair. *)
Definition wellFormed (f : File) : Prop :=
  bomProbeFails f = false
  /\ readFailsAt f = None
  /\ getBytesPerControlChar encoding (detectBom encoding f) = 1
  /\ payload encoding f <> []
  /\ Forall (fun x => x <> x00) (payload encoding f)
  /\ ~ EndsWith [x0d] (payload encoding f)
  /\ ~ EndsWith [x0d; x0a] (payload encoding f).

(** The content the rewriter is to leave in a file. *)
Definition unixContent (f : File) : buffer :=
  firstn (getBytesPerBom encoding (detectBom encoding f)) (bytes f)
  ++ strip (payload encoding f).

Import Strings.String.

(** A small file system for examples: a DOS text file, a Unix text file, a
    file that starts with a NUL byte, and empty files for all other
    paths. *)
Definition exampleDisk : Disk :=
  mkDisk
    (fun p =>
       if String.eqb p "dos.txt" then plain [x61; x0d; x0a; x62]
       else if String.eqb p "unix.txt" then plain [x61; x0a; x62]
       else if String.eqb p "data.bin" then plain [x00; x0d; x0a; x61]
       else plain [])
    (fun _ => false).

End Batch.

(** [needsFixing] after one more unit, as [readCallback] sets it. *)
Definition nextNeedsFixing (enc : Encoder) (bom : jsbom)
           (needsFixing lastCR : bool) (u : buffer) : bool :=
  if isCR enc bom u then needsFixing
  else if lastCR && isLF enc bom u then true else needsFixing.

(** * Properties *)

(** ** Buffers and the reader *)

Lemma slice_prefix {o n : nat} {b u rest : buffer} :
  skipn o b = u ++ rest -> n = length u -> slice o (o + n) b = u.
Proof.
  intros E ->. unfold slice.
  replace (o + length u - o) with (length u) by lia.
  rewrite E, firstn_app, Nat.sub_diag, firstn_all. simpl.
  now rewrite app_nil_r.
Qed.

Lemma slice_short (o n : nat) (b : buffer) :
  length (skipn o b) <= n -> slice o (o + n) b = skipn o b.
Proof.
  intros L. unfold slice.
  replace (o + n - o) with n by lia.
  now apply firstn_all2.
Qed.

Lemma skipn_more {o : nat} {b u rest : buffer} :
  skipn o b = u ++ rest -> skipn (o + length u) b = rest.
Proof.
  intros E. rewrite Nat.add_comm, <- skipn_skipn, E.
  rewrite skipn_app, Nat.sub_diag, skipn_all. reflexivity.
Qed.

Lemma skipn_nonempty_lt (o : nat) (b : buffer) :
  skipn o b <> [] -> o < length b.
Proof.
  intros N. destruct (Nat.lt_ge_cases o (length b)) as [L | L]; [exact L |].
  exfalso. apply N. now apply skipn_all2.
Qed.

Lemma read_ok (n : nat) (r : BinaryReader) :
  readFailsAt (source r) = None ->
  read n r =
  (ReadOk (slice (offset r) (offset r + n) (bytes (source r))),
   mkReader (source r)
            (offset r + length (slice (offset r) (offset r + n)
                                      (bytes (source r))))
            (S (requests r))).
Proof. intros H. unfold read. now rewrite H. Qed.

Lemma read_err (n : nat) (r : BinaryReader) :
  readFailsAt (source r) = Some (requests r) ->
  read n r = (ReadErr, mkReader (source r) (offset r) (S (requests r))).
Proof. intros H. unfold read. now rewrite H, Nat.eqb_refl. Qed.

Lemma buf_eqb_eq (a b : buffer) : buf_eqb a b = true <-> a = b.
Proof.
  revert b. induction a as [| x a IH]; intros [| y b]; simpl;
    try (split; [discriminate | congruence]); [tauto |].
  rewrite andb_true_iff, IH. split.
  - intros [E ->]. now rewrite (byte_dec_bl _ _ E).
  - intros [= -> ->]. split; [now apply byte_dec_lb | reflexivity].
Qed.

(** ** The scan, one control unit at a time *)

Section Scan.

Variable enc : Encoder.
Variable bom : jsbom.

Local Abbreviation w := (getBytesPerControlChar enc bom).

Hypothesis unit_not_empty : 0 < w.

Lemma readLoop_step fuel needsFixing lastCR r u rest :
  readFailsAt (source r) = None ->
  skipn (offset r) (bytes (source r)) = u ++ rest ->
  fullUnit enc bom u ->
  isBinary enc bom u = false ->
  rest <> [] ->
  readLoop enc bom (S fuel) needsFixing lastCR r =
  readLoop enc bom fuel (nextNeedsFixing enc bom needsFixing lastCR u)
           (isCR enc bom u)
           (mkReader (source r) (offset r + w) (S (requests r))).
Proof.
  intros Hok E Hu Hb Hrest. unfold fullUnit in Hu.
  cbn [readLoop]. rewrite (read_ok _ _ Hok).
  rewrite (slice_prefix E (eq_sym Hu)).
  rewrite Hu, Nat.eqb_refl.
  unfold isBinary in Hb. rewrite Hb.
  unfold isOffsetOutOfWindow; cbn [source offset].
  assert (L : offset r + w < length (bytes (source r))).
  { apply skipn_nonempty_lt. rewrite <- Hu, (skipn_more E). exact Hrest. }
  destruct (Nat.leb_spec (length (bytes (source r))) (offset r + w));
    [lia |].
  unfold nextNeedsFixing, isCR, isLF.
  destruct (isByteSequenceCR enc u bom); reflexivity.
Qed.

Lemma readLoop_last fuel needsFixing lastCR r u :
  readFailsAt (source r) = None ->
  skipn (offset r) (bytes (source r)) = u ->
  fullUnit enc bom u ->
  isBinary enc bom u = false ->
  readLoop enc bom (S fuel) needsFixing lastCR r =
  Some (Done (if nextNeedsFixing enc bom needsFixing lastCR u then bad else good),
        mkReader (source r) (offset r + w) (S (requests r))).
Proof.
  intros Hok E Hu Hb. unfold fullUnit in Hu.
  assert (E' : skipn (offset r) (bytes (source r)) = u ++ [])
    by now rewrite app_nil_r.
  cbn [readLoop]. rewrite (read_ok _ _ Hok).
  rewrite (slice_prefix E' (eq_sym Hu)).
  rewrite Hu, Nat.eqb_refl.
  unfold isBinary in Hb. rewrite Hb.
  unfold isOffsetOutOfWindow; cbn [source offset].
  assert (L : length (bytes (source r)) <= offset r + w).
  { pose proof (length_skipn (offset r) (bytes (source r))) as K.
    rewrite E, Hu in K. lia. }
  destruct (Nat.leb_spec (length (bytes (source r))) (offset r + w));
    [| lia].
  unfold nextNeedsFixing, isCR, isLF.
  destruct (isByteSequenceCR enc u bom);
    [destruct needsFixing; reflexivity |].
  destruct (lastCR && isByteSequenceLF enc u bom);
    [reflexivity | destruct needsFixing; reflexivity].
Qed.

Lemma readLoop_binary_unit fuel needsFixing lastCR r u rest :
  readFailsAt (source r) = None ->
  skipn (offset r) (bytes (source r)) = u ++ rest ->
  fullUnit enc bom u ->
  isBinary enc bom u = true ->
  readLoop enc bom (S fuel) needsFixing lastCR r =
  Some (Done binary, mkReader (source r) (offset r + w) (S (requests r))).
Proof.
  intros Hok E Hu Hb. unfold fullUnit in Hu.
  cbn [readLoop]. rewrite (read_ok _ _ Hok).
  rewrite (slice_prefix E (eq_sym Hu)).
  rewrite Hu, Nat.eqb_refl.
  unfold isBinary in Hb. now rewrite Hb.
Qed.

Lemma readLoop_partial_unit fuel needsFixing lastCR r :
  readFailsAt (source r) = None ->
  0 < length (skipn (offset r) (bytes (source r))) < w ->
  readLoop enc bom (S fuel) needsFixing lastCR r =
  Some (Done error,
        mkReader (source r) (length (bytes (source r))) (S (requests r))).
Proof.
  intros Hok [L0 L1].
  cbn [readLoop]. rewrite (read_ok _ _ Hok).
  rewrite slice_short by lia.
  destruct (Nat.eqb_spec (length (skipn (offset r) (bytes (source r)))) w);
    [lia |].
  destruct (Nat.ltb_spec 0 (length (skipn (offset r) (bytes (source r)))));
    [| lia].
  do 3 f_equal. rewrite length_skipn in *. lia.
Qed.

Lemma readLoop_nothing_left fuel needsFixing lastCR r :
  readFailsAt (source r) = None ->
  skipn (offset r) (bytes (source r)) = [] ->
  readLoop enc bom (S fuel) needsFixing lastCR r =
  Some (Pending, mkReader (source r) (offset r) (S (requests r))).
Proof.
  intros Hok E.
  cbn [readLoop]. rewrite (read_ok _ _ Hok).
  rewrite slice_short by (rewrite E; simpl; lia).
  rewrite E. cbn [length].
  destruct (Nat.eqb_spec 0 w); [lia |].
  cbn. now rewrite Nat.add_0_r.
Qed.

Lemma readLoop_read_error fuel needsFixing lastCR r :
  readFailsAt (source r) = Some (requests r) ->
  readLoop enc bom (S fuel) needsFixing lastCR r =
  Some (Done error, mkReader (source r) (offset r) (S (requests r))).
Proof.
  intros H. cbn [readLoop]. now rewrite (read_err _ _ H).
Qed.

(** The scan over a sequence of control units. *)

Lemma fullUnit_nonempty u : fullUnit enc bom u -> u <> [].
Proof. unfold fullUnit. intros L ->. simpl in L. lia. Qed.

Lemma concat_units_nonempty us :
  Forall (fullUnit enc bom) us -> us <> [] -> concat us <> [].
Proof.
  intros F N. destruct us as [| u us]; [congruence |].
  inversion F as [| ? ? Fu _]; subst. simpl.
  pose proof (fullUnit_nonempty u Fu). destruct u; [congruence | discriminate].
Qed.

Lemma length_concat_units us :
  Forall (fullUnit enc bom) us -> length (concat us) = length us * w.
Proof.
  induction 1 as [| u us Fu _ IH]; [reflexivity |].
  simpl. rewrite length_app, IH, Fu. reflexivity.
Qed.

Lemma nextNeedsFixing_scanFrom needsFixing lastCR u us :
  nextNeedsFixing enc bom needsFixing lastCR u
    || scanFrom enc bom (isCR enc bom u) us
  = needsFixing || scanFrom enc bom lastCR (u :: us).
Proof.
  unfold nextNeedsFixing. simpl.
  destruct (isCR enc bom u), needsFixing, lastCR, (isLF enc bom u);
    reflexivity.
Qed.

(** A file that ends after a whole number of units, none of them binary,
    is scanned to its end and gets [bad] or [good]. *)
Lemma readLoop_units us : forall fuel needsFixing lastCR r,
  readFailsAt (source r) = None ->
  skipn (offset r) (bytes (source r)) = concat us ->
  us <> [] ->
  Forall (fullUnit enc bom) us ->
  Forall (fun u => isBinary enc bom u = false) us ->
  length us <= fuel ->
  exists r',
    readLoop enc bom fuel needsFixing lastCR r =
    Some (Done (if needsFixing || scanFrom enc bom lastCR us
                then bad else good), r')
    /\ offset r' = length (bytes (source r)).
Proof.
  induction us as [| u us IH]; intros fuel nf lcr r Hok E N F B L;
    [congruence |].
  inversion F as [| ? ? Fu Fus]; subst.
  inversion B as [| ? ? Bu Bus]; subst.
  destruct fuel as [| fuel]; [simpl in L; lia |].
  simpl in E.
  destruct us as [| v us].
  - simpl in E. rewrite app_nil_r in E.
    rewrite (readLoop_last fuel nf lcr r u Hok E Fu Bu).
    eexists; split.
    + rewrite <- nextNeedsFixing_scanFrom. simpl scanFrom.
      rewrite orb_false_r. reflexivity.
    + cbn [offset].
      pose proof (length_skipn (offset r) (bytes (source r))) as K.
      rewrite E, Fu in K.
      assert (offset r < length (bytes (source r))).
      { apply skipn_nonempty_lt. rewrite E.
        now apply fullUnit_nonempty. }
      lia.
  - assert (Hrest : concat (v :: us) <> []).
    { apply concat_units_nonempty; [exact Fus | discriminate]. }
    rewrite (readLoop_step fuel nf lcr r u _ Hok E Fu Bu Hrest).
    destruct (IH fuel (nextNeedsFixing enc bom nf lcr u) (isCR enc bom u)
                 (mkReader (source r) (offset r + w) (S (requests r))))
      as (r' & R & O); cbn [source offset]; try assumption.
    + rewrite <- Fu. apply (skipn_more E).
    + discriminate.
    + simpl in L |- *. lia.
    + exists r'. split; [| exact O].
      rewrite R, nextNeedsFixing_scanFrom. reflexivity.
Qed.

(** The scan ends at the first binary-indicating unit. *)
Lemma readLoop_binary pre : forall fuel needsFixing lastCR r u rest,
  readFailsAt (source r) = None ->
  skipn (offset r) (bytes (source r)) = concat pre ++ u ++ rest ->
  Forall (fullUnit enc bom) pre ->
  Forall (fun u => isBinary enc bom u = false) pre ->
  fullUnit enc bom u ->
  isBinary enc bom u = true ->
  length pre < fuel ->
  exists r',
    readLoop enc bom fuel needsFixing lastCR r = Some (Done binary, r')
    /\ offset r' = offset r + length (concat pre) + length u.
Proof.
  induction pre as [| p pre IH]; intros fuel nf lcr r u rest Hok E F B Fu Bu L.
  - destruct fuel as [| fuel]; [lia |]. simpl in E.
    rewrite (readLoop_binary_unit fuel nf lcr r u rest Hok E Fu Bu).
    eexists; split; [reflexivity |]. cbn [offset]. simpl. rewrite Fu. lia.
  - inversion F as [| ? ? Fp Fpre]; subst.
    inversion B as [| ? ? Bp Bpre]; subst.
    destruct fuel as [| fuel]; [simpl in L; lia |].
    simpl in E. rewrite <- app_assoc in E.
    assert (Hrest : concat pre ++ u ++ rest <> []).
    { pose proof (fullUnit_nonempty u Fu).
      destruct (concat pre); simpl; [| discriminate].
      destruct u; [congruence | discriminate]. }
    rewrite (readLoop_step fuel nf lcr r p _ Hok E Fp Bp Hrest).
    destruct (IH fuel (nextNeedsFixing enc bom nf lcr p) (isCR enc bom p)
                 (mkReader (source r) (offset r + w) (S (requests r)))
                 u rest)
      as (r' & R & O); cbn [source offset]; try assumption.
    + rewrite <- Fp. apply (skipn_more E).
    + simpl in L. lia.
    + exists r'. split; [exact R |].
      rewrite O. cbn [offset]. simpl. rewrite length_app, Fp. lia.
Qed.

(** A last unit that is cut short by the end of the file is an error. *)
Lemma readLoop_partial pre : forall fuel needsFixing lastCR r tail,
  readFailsAt (source r) = None ->
  skipn (offset r) (bytes (source r)) = concat pre ++ tail ->
  Forall (fullUnit enc bom) pre ->
  Forall (fun u => isBinary enc bom u = false) pre ->
  0 < length tail < w ->
  length pre < fuel ->
  exists r',
    readLoop enc bom fuel needsFixing lastCR r = Some (Done error, r')
    /\ offset r' = length (bytes (source r)).
Proof.
  induction pre as [| p pre IH]; intros fuel nf lcr r tail Hok E F B T L.
  - destruct fuel as [| fuel]; [lia |]. simpl in E.
    rewrite (readLoop_partial_unit fuel nf lcr r Hok)
      by (rewrite E; exact T).
    eexists; split; reflexivity.
  - inversion F as [| ? ? Fp Fpre]; subst.
    inversion B as [| ? ? Bp Bpre]; subst.
    destruct fuel as [| fuel]; [simpl in L; lia |].
    simpl in E. rewrite <- app_assoc in E.
    assert (Hrest : concat pre ++ tail <> []).
    { destruct (concat pre); simpl; [| discriminate].
      destruct tail; [simpl in T; lia | discriminate]. }
    rewrite (readLoop_step fuel nf lcr r p _ Hok E Fp Bp Hrest).
    destruct (IH fuel (nextNeedsFixing enc bom nf lcr p) (isCR enc bom p)
                 (mkReader (source r) (offset r + w) (S (requests r)))
                 tail)
      as (r' & R & O); cbn [source offset]; try assumption.
    + rewrite <- Fp. apply (skipn_more E).
    + simpl in L. lia.
    + exists r'. split; [exact R | exact O].
Qed.

End Scan.

(** ** CRLF pairs *)

Section Pairs.

Variable enc : Encoder.
Variable bom : jsbom.

Hypothesis cr_is_not_lf :
  forall u, isCR enc bom u = true -> isLF enc bom u = false.

Lemma hasCRLF_cons u us :
  hasCRLF enc bom (u :: us) =
  (isCR enc bom u && match us with v :: _ => isLF enc bom v | [] => false end)
  || hasCRLF enc bom us.
Proof.
  destruct us as [| v us]; simpl; [| reflexivity].
  now rewrite andb_false_r.
Qed.

Lemma scanFrom_hasCRLF us : forall lastCR,
  scanFrom enc bom lastCR us =
  (lastCR && match us with v :: _ => isLF enc bom v | [] => false end)
  || hasCRLF enc bom us.
Proof.
  induction us as [| u us IH]; intros lcr.
  - simpl. now rewrite andb_false_r.
  - cbn [scanFrom]. rewrite IH, hasCRLF_cons.
    destruct (isCR enc bom u) eqn:C.
    + rewrite (cr_is_not_lf u C), andb_false_r. reflexivity.
    + reflexivity.
Qed.

Lemma hasCRLF_iff us : hasCRLF enc bom us = true <-> CRLFPair enc bom us.
Proof.
  induction us as [| u us IH].
  - simpl. split; [discriminate |].
    intros (pre & a & b & post & E & _). destruct pre; discriminate.
  - rewrite hasCRLF_cons, orb_true_iff, IH. split.
    + intros [H | (pre & a & b & post & E & Ca & Lb)].
      * destruct us as [| v us]; [now rewrite andb_false_r in H |].
        apply andb_true_iff in H as [C L].
        now exists [], u, v, us.
      * exists (u :: pre), a, b, post. now rewrite E.
    + intros (pre & a & b & post & E & Ca & Lb).
      destruct pre as [| p pre]; simpl in E; injection E as -> ->.
      * left. now rewrite Ca, Lb.
      * right. now exists pre, a, b, post.
Qed.

End Pairs.

(** ** The whole classification *)

Lemma determine_start enc f :
  readFailsAt f = None ->
  getBytesPerBom enc (detectBom enc f) <= length (bytes f) ->
  exists k,
    determineProcessingStatusOfFile enc f =
    readLoop enc (detectBom enc f) (S (length (bytes f))) false false
             (mkReader f (getBytesPerBom enc (detectBom enc f)) k).
Proof.
  intros Hok L. unfold determineProcessingStatusOfFile.
  destruct (Nat.ltb_spec 0 (getBytesPerBom enc (detectBom enc f))) as [P | P].
  - rewrite read_ok by exact Hok. cbn [source offset requests].
    assert (E : length (slice 0 (0 + getBytesPerBom enc (detectBom enc f))
                              (bytes f))
                = getBytesPerBom enc (detectBom enc f)).
    { unfold slice. simpl. rewrite Nat.sub_0_r, length_firstn. lia. }
    rewrite E.
    destruct (Nat.ltb_spec (getBytesPerBom enc (detectBom enc f))
                           (getBytesPerBom enc (detectBom enc f))); [lia |].
    now exists 1.
  - exists 0. replace (getBytesPerBom enc (detectBom enc f)) with 0 by lia.
    reflexivity.
Qed.

Lemma payload_bound enc f :
  payload enc f <> [] ->
  getBytesPerBom enc (detectBom enc f) <= length (bytes f).
Proof.
  intros N. apply Nat.lt_le_incl. now apply skipn_nonempty_lt.
Qed.

(** A file that is read without failure and consists, after its BOM, of at
    least one complete unit and no partial or binary unit, is scanned to
    its end: the status is that of the state machine and the reader has
    consumed the whole file. *)
Lemma determine_units enc f us :
  0 < getBytesPerControlChar enc (detectBom enc f) ->
  readFailsAt f = None ->
  payload enc f = concat us ->
  us <> [] ->
  Forall (fullUnit enc (detectBom enc f)) us ->
  Forall (fun u => isBinary enc (detectBom enc f) u = false) us ->
  exists r,
    determineProcessingStatusOfFile enc f =
    Some (Done (if scanFrom enc (detectBom enc f) false us then bad else good),
          r)
    /\ offset r = length (bytes f).
Proof.
  intros W Hok E N F B.
  assert (NE : payload enc f <> []).
  { rewrite E. now apply (concat_units_nonempty enc (detectBom enc f)). }
  destruct (determine_start enc f Hok (payload_bound enc f NE)) as [k ->].
  destruct (readLoop_units enc (detectBom enc f) W us
              (S (length (bytes f))) false false
              (mkReader f (getBytesPerBom enc (detectBom enc f)) k))
    as (r & R & O); cbn [source offset]; try assumption.
  - pose proof (length_concat_units enc (detectBom enc f) us F) as K.
    rewrite <- E in K. unfold payload in K. rewrite length_skipn in K.
    unfold buffer in *. nia.
  - exists r. split; [exact R | exact O].
Qed.

(** ** The encoder of the spec *)

Lemma encoding_unit_not_empty bom : 0 < getBytesPerControlChar encoding bom.
Proof.
  destruct bom as [[] |];
    cbv [getBytesPerControlChar encoding Encoding.getBytesPerControlChar
         Encoding.variant]; lia.
Qed.

Lemma encoding_cr_is_not_lf bom u :
  isCR encoding bom u = true -> isLF encoding bom u = false.
Proof.
  unfold isCR, isLF. simpl.
  unfold Encoding.isByteSequenceCR, Encoding.isByteSequenceLF.
  intros C. apply buf_eqb_eq in C. subst u.
  destruct bom as [[] |]; reflexivity.
Qed.

(** ** Classification of files that are scanned to their end *)

(** C2. A file that is read without failure, ends after a whole number of
    control units (at least one) and has no binary-indicating unit is
    classified [bad] exactly when some CR unit is immediately followed by an
    LF unit, and [good] otherwise; this covers files without any CR unit and
    files whose only CR is the last unit.  The encoder is any encoder with
    non-empty control units in which no unit is both CR and LF. *)
Theorem classify_bad_iff_crlf_pair (enc : Encoder) (content : buffer)
        (us : list buffer) :
  let f := plain content in
  let bom := detectBom enc f in
  0 < getBytesPerControlChar enc bom ->
  (forall u, isCR enc bom u = true -> isLF enc bom u = false) ->
  payload enc f = concat us ->
  us <> [] ->
  Forall (fullUnit enc bom) us ->
  Forall (fun u => isBinary enc bom u = false) us ->
  (classify enc f = Some (Done bad) <-> CRLFPair enc bom us)
  /\ (classify enc f = Some (Done good) <-> ~ CRLFPair enc bom us).
Proof.
  intros f bom W D E N F B.
  destruct (determine_units enc f us W eq_refl E N F B) as (r & R & _).
  unfold classify. rewrite R. cbn [option_map fst].
  fold bom. rewrite (scanFrom_hasCRLF enc bom D). cbn [andb orb].
  rewrite <- (hasCRLF_iff enc bom us).
  destruct (hasCRLF enc bom us); split; split;
    congruence || (intros; exfalso; auto; congruence).
Qed.

Lemma classify_bad_iff_crlf_pair_witness :
  classify encoding (plain [x61; x0d; x0a; x62]) = Some (Done bad)
  <-> CRLFPair encoding (Some BomNone) [[x61]; [x0d]; [x0a]; [x62]].
Proof.
  apply (classify_bad_iff_crlf_pair encoding [x61; x0d; x0a; x62]
           [[x61]; [x0d]; [x0a]; [x62]]).
  - apply encoding_unit_not_empty.
  - apply encoding_cr_is_not_lf.
  - reflexivity.
  - discriminate.
  - repeat constructor.
  - repeat constructor.
Defined.

(** ** Binary files *)

(** The scan of a file that is read without failure ends at its first
    binary-indicating unit [u]. *)
Lemma determine_binary (enc : Encoder) (f : File)
      (pre : list buffer) (u rest : buffer) :
  0 < getBytesPerControlChar enc (detectBom enc f) ->
  readFailsAt f = None ->
  payload enc f = concat pre ++ u ++ rest ->
  Forall (fullUnit enc (detectBom enc f)) pre ->
  Forall (fun v => isBinary enc (detectBom enc f) v = false) pre ->
  fullUnit enc (detectBom enc f) u ->
  isBinary enc (detectBom enc f) u = true ->
  exists r,
    determineProcessingStatusOfFile enc f = Some (Done binary, r)
    /\ offset r =
       getBytesPerBom enc (detectBom enc f) + length (concat pre) + length u.
Proof.
  intros W Hok E F B Fu Bu.
  assert (NE : payload enc f <> []).
  { rewrite E. pose proof (fullUnit_nonempty enc _ W u Fu).
    destruct (concat pre); simpl; [| discriminate].
    destruct u; [congruence | discriminate]. }
  destruct (determine_start enc f Hok (payload_bound enc f NE)) as [k St].
  destruct (readLoop_binary enc _ W pre (S (length (bytes f))) false false
              (mkReader f (getBytesPerBom enc (detectBom enc f)) k) u rest)
    as (r & R & O); cbn [source offset]; try assumption.
  - pose proof (length_concat_units enc _ pre F) as K.
    pose proof (f_equal (@length byte) E) as L.
    unfold payload in L. rewrite length_skipn, !length_app in L.
    unfold buffer in *. nia.
  - exists r. rewrite St. split; [exact R | exact O].
Qed.

(** C8. When the content after the BOM of a file that is read without
    failure has a binary-indicating unit, [u] being the first one, the
    status is [binary] and the reader has consumed the file up to the end
    of [u] and no further, whatever follows [u]. *)
Theorem classify_binary_stops_at_first (enc : Encoder) (content : buffer)
        (pre : list buffer) (u rest : buffer) :
  let f := plain content in
  let bom := detectBom enc f in
  0 < getBytesPerControlChar enc bom ->
  payload enc f = concat pre ++ u ++ rest ->
  Forall (fullUnit enc bom) pre ->
  Forall (fun v => isBinary enc bom v = false) pre ->
  fullUnit enc bom u ->
  isBinary enc bom u = true ->
  classify enc f = Some (Done binary)
  /\ bytesConsumed enc f =
     Some (getBytesPerBom enc bom + length (concat pre) + length u).
Proof.
  intros f bom W E F B Fu Bu.
  destruct (determine_binary enc f pre u rest W eq_refl E F B Fu Bu)
    as (r & R & O).
  unfold classify, bytesConsumed. rewrite R.
  cbn [option_map fst snd]. now rewrite O.
Qed.

Lemma classify_binary_stops_at_first_witness :
  classify encoding (plain [x61; x00; x0d; x0a]) = Some (Done binary)
  /\ bytesConsumed encoding (plain [x61; x00; x0d; x0a]) = Some 2.
Proof.
  apply (classify_binary_stops_at_first encoding [x61; x00; x0d; x0a]
           [[x61]] [x00] [x0d; x0a]).
  - apply encoding_unit_not_empty.
  - reflexivity.
  - repeat constructor.
  - repeat constructor.
  - reflexivity.
  - reflexivity.
Defined.

(** ** Files that end inside a control unit *)

(** C10, as stated, fails for the encoder of the spec: the UTF-16 BE file
    FE FF 00 00 61 has three bytes after its BOM, and its first unit 00 00
    ends the scan with [binary]. *)
Lemma partial_unit_after_binary_is_binary :
  ~ (forall content : buffer,
       let f := plain content in
       length (payload encoding f)
         mod getBytesPerControlChar encoding (detectBom encoding f) <> 0 ->
       classify encoding f = Some (Done error)).
Proof.
  intros H. specialize (H [xfe; xff; x00; x00; x61]).
  assert (C : classify encoding (plain [xfe; xff; x00; x00; x61])
              = Some (Done binary)) by reflexivity.
  rewrite H in C; [discriminate |].
  vm_compute. discriminate.
Qed.

(** C10, amended. When the content after the BOM of a file that is read
    without failure consists of complete units, none of them
    binary-indicating, followed by a non-empty tail shorter than a unit,
    the status is [error]. *)
Theorem classify_partial_unit_error (enc : Encoder) (content : buffer)
        (pre : list buffer) (tail : buffer) :
  let f := plain content in
  let bom := detectBom enc f in
  payload enc f = concat pre ++ tail ->
  Forall (fullUnit enc bom) pre ->
  Forall (fun v => isBinary enc bom v = false) pre ->
  0 < length tail < getBytesPerControlChar enc bom ->
  classify enc f = Some (Done error).
Proof.
  intros f bom E F B T.
  assert (W : 0 < getBytesPerControlChar enc bom) by lia.
  assert (NE : payload enc f <> []).
  { rewrite E. destruct (concat pre); simpl; [| discriminate].
    destruct tail; [simpl in T; lia | discriminate]. }
  destruct (determine_start enc f eq_refl (payload_bound enc f NE)) as [k St].
  destruct (readLoop_partial enc bom W pre (S (length (bytes f))) false false
              (mkReader f (getBytesPerBom enc bom) k) tail)
    as (r & R & O); cbn [source offset]; try assumption.
  - reflexivity.
  - pose proof (length_concat_units enc bom pre F) as K.
    pose proof (f_equal (@length byte) E) as L.
    unfold payload in L. rewrite length_skipn, !length_app in L.
    unfold buffer in *. fold bom in L. nia.
  - unfold classify. fold bom in St. rewrite St, R. reflexivity.
Qed.

Lemma classify_partial_unit_error_witness :
  classify encoding (plain [xff; xfe; x61; x00; x62]) = Some (Done error).
Proof.
  apply (classify_partial_unit_error encoding [xff; xfe; x61; x00; x62]
           [[x61; x00]] [x62]).
  - reflexivity.
  - repeat constructor.
  - repeat constructor.
  - vm_compute. lia.
Defined.

(** ** Files without content *)

(** A scan that starts at the end of the file calls [done] with [error]
    when the read fails and does not call it otherwise. *)
Lemma readLoop_at_end enc bom fuel needsFixing lastCR r :
  0 < getBytesPerControlChar enc bom ->
  skipn (offset r) (bytes (source r)) = [] ->
  exists r',
    readLoop enc bom (S fuel) needsFixing lastCR r = Some (Pending, r')
    \/ readLoop enc bom (S fuel) needsFixing lastCR r = Some (Done error, r').
Proof.
  intros W E.
  destruct (readFailsAt (source r)) as [k |] eqn:K.
  - destruct (Nat.eqb_spec k (requests r)) as [-> | N].
    + eexists. right. now apply readLoop_read_error.
    + eexists. left. cbn [readLoop]. unfold read. rewrite K.
      destruct (Nat.eqb_spec k (requests r)); [contradiction |].
      rewrite slice_short by (rewrite E; simpl; lia).
      rewrite E. cbn [length].
      destruct (Nat.eqb_spec 0 (getBytesPerControlChar enc bom)); [lia |].
      reflexivity.
  - eexists. left. now apply readLoop_nothing_left.
Qed.

(** Whatever the encoder and whatever fails, the classification of a file
    with nothing after its BOM does not complete, or ends with [error]. *)
Lemma classify_no_content enc f :
  0 < getBytesPerControlChar enc (detectBom enc f) ->
  payload enc f = [] ->
  classify enc f = Some Pending \/ classify enc f = Some (Done error).
Proof.
  intros W E. unfold classify, determineProcessingStatusOfFile.
  assert (K : length (bytes f) <= getBytesPerBom enc (detectBom enc f)).
  { unfold payload in E.
    pose proof (length_skipn (getBytesPerBom enc (detectBom enc f)) (bytes f))
      as K.
    rewrite E in K. simpl in K. lia. }
  destruct (Nat.ltb_spec 0 (getBytesPerBom enc (detectBom enc f))) as [P | P].
  - destruct (read (getBytesPerBom enc (detectBom enc f)) (mkReader f 0 0))
      as [[| data] r] eqn:R; [now right |].
    destruct (length data <? getBytesPerBom enc (detectBom enc f)) eqn:Lt;
      [now right |].
    apply Nat.ltb_ge in Lt.
    assert (Hr : source r = f /\ offset r = length data).
    { unfold read in R. cbn [source offset requests] in R.
      destruct (readFailsAt f) as [k |]; [destruct (k =? 0) |];
        inversion R; subst; cbn; auto. }
    destruct Hr as (Hs & Ho).
    destruct (readLoop_at_end enc (detectBom enc f) (length (bytes f))
                false false r W) as [r' [-> | ->]]; auto.
    rewrite Hs, Ho. apply skipn_all2. lia.
  - destruct (readLoop_at_end enc (detectBom enc f) (length (bytes f))
                false false (mkReader f 0 0) W) as [r' [-> | ->]]; auto.
    cbn [source offset]. apply skipn_all2. lia.
Qed.

(** C4, on the code: for the empty file, and for a file that is a UTF-8 BOM
    and nothing else, the reader delivers no byte, [readCallback] takes
    neither of its branches and [done] is never called; the claim has the
    classification complete with [good]. *)
Theorem classify_empty_file_never_completes :
  classify encoding (plain []) = Some Pending
  /\ classify encoding (plain [xef; xbb; xbf]) = Some Pending.
Proof. split; reflexivity. Qed.

(** ** Failures *)

(** X4. A failure of the reader's first request ends the classification with
    [error], for any encoder. *)
Lemma classify_unreadable enc f :
  readFailsAt f = Some 0 -> classify enc f = Some (Done error).
Proof.
  intros H. unfold classify, determineProcessingStatusOfFile.
  destruct (0 <? getBytesPerBom enc (detectBom enc f)).
  - now rewrite read_err.
  - now rewrite readLoop_read_error.
Qed.

(** C5, on the code: the [err] that [encoder.detectBom] hands over is not
    looked at; when the BOM probe fails and the reader then reads the one
    byte "a", [done] is called with [good], where the claim has [error]. *)
Theorem classify_ignores_bom_probe_failure :
  classify encoding (mkFile [x61] true None) = Some (Done good).
Proof. reflexivity. Qed.

(** ** The rewriter for one-byte control units *)

Lemma isCR_one_byte x : isByteSequenceCR encoding [x] None = isCRbyte x.
Proof. cbn. apply andb_true_r. Qed.

Lemma one_byte_variant bom :
  getBytesPerControlChar encoding (Some bom) = 1 -> bom = BomNone \/ bom = UTF8.
Proof. destruct bom; cbn; intros; auto; discriminate. Qed.

Lemma isLF_one_byte bom x :
  getBytesPerControlChar encoding (Some bom) = 1 ->
  isByteSequenceLF encoding [x] (Some bom) = isLFbyte x.
Proof.
  intros W. destruct (one_byte_variant bom W) as [-> | ->];
    cbn; apply andb_true_r.
Qed.


(** ** Dropping the CR of a CRLF pair, on bytes *)

Lemma isCRbyte_eq x : isCRbyte x = true -> x = x0d.
Proof. apply byte_dec_bl. Qed.

Lemma isLFbyte_eq x : isLFbyte x = true -> x = x0a.
Proof. apply byte_dec_bl. Qed.

Lemma strip_keep x l : isCRbyte x = false -> strip (x :: l) = x :: strip l.
Proof. intros C. destruct l; simpl; [reflexivity | now rewrite C]. Qed.

Lemma strip_cr_keep y l :
  isLFbyte y = false -> strip (x0d :: y :: l) = x0d :: strip (y :: l).
Proof. intros C. cbn [strip]. now rewrite C, andb_false_r. Qed.

Lemma strip_cr_lf l : strip (x0d :: x0a :: l) = x0a :: strip l.
Proof.
  change (strip (x0d :: x0a :: l)) with (strip (x0a :: l)).
  now apply strip_keep.
Qed.

Lemma skipn_snoc {A} n (l : list A) x :
  n <= length l -> skipn n (l ++ [x]) = skipn n l ++ [x].
Proof.
  intros L. rewrite skipn_app.
  replace (n - length l) with 0 by lia. reflexivity.
Qed.

Lemma slice_done lw (done rest : buffer) :
  lw <= length done ->
  slice lw (length done) (done ++ rest) = skipn lw done.
Proof.
  intros L. unfold slice. rewrite skipn_app.
  replace (lw - length done) with 0 by lia. simpl skipn at 2.
  rewrite firstn_app, length_skipn.
  replace (length done - lw - (length done - lw)) with 0 by lia.
  rewrite firstn_all2 by (rewrite length_skipn; lia).
  simpl. apply app_nil_r.
Qed.

Section RewriterOneByte.

Variable buf : buffer.

Hypothesis one_byte :
  getBytesPerControlChar encoding
    (Some (detectBomFromBuffer encoding (slice 0 4 buf))) = 1.

Lemma convertLoop_exit fuel b lastCR lastWriteIndex out :
  length buf <= b ->
  convertLoop encoding buf (S fuel) b lastCR lastWriteIndex out = Some out.
Proof.
  intros L. cbn [convertLoop].
  destruct (Nat.ltb_spec b (length buf)); [lia | reflexivity].
Qed.

Lemma convertLoop_round fuel done x rest lastCR lastWriteIndex out :
  buf = done ++ x :: rest ->
  convertLoop encoding buf (S fuel) (length done) lastCR lastWriteIndex out =
  if isCRbyte x then
    convertLoop encoding buf fuel (S (length done)) true lastWriteIndex out
  else if lastCR && isLFbyte x then
    convertLoop encoding buf fuel (S (length done)) false (length done)
      (write (slice lastWriteIndex (length done - 1) buf) out)
  else if length rest =? 0 then
    convertLoop encoding buf fuel (S (length done)) false lastWriteIndex
      (end_ (slice lastWriteIndex (S (length done)) buf) out)
  else
    convertLoop encoding buf fuel (S (length done)) false lastWriteIndex out.
Proof.
  intros E. cbn [convertLoop]. rewrite one_byte.
  assert (L : length buf = length done + S (length rest)).
  { rewrite E, length_app. reflexivity. }
  destruct (Nat.ltb_spec (length done) (length buf)); [| lia].
  assert (S1 : slice (length done) (length done + 1) buf = [x]).
  { apply (slice_prefix (rest := rest)); [| reflexivity].
    rewrite E, skipn_app, Nat.sub_diag, skipn_all. reflexivity. }
  rewrite S1, isCR_one_byte, (isLF_one_byte _ x one_byte).
  rewrite Nat.add_1_r.
  destruct (Nat.eqb_spec (S (length done)) (length buf));
    destruct (Nat.eqb_spec (length rest) 0); try reflexivity; lia.
Qed.

(** The loop from the unit at [length done] on, when the last unit of the
    file is one at which the loop flushes: all that was pending is written,
    minus the CR of each CRLF pair, and the stream is ended.  [kept] is the
    pending part without the CR that may still be dropped. *)
Lemma convertLoop_strips (rest : buffer) :
  forall (done : buffer) (lastCR : bool) (lastWriteIndex : nat)
         (out : WriteStream) (kept : buffer) (fuel : nat),
  buf = done ++ rest ->
  length rest < fuel ->
  lastWriteIndex <= length done ->
  skipn lastWriteIndex done = kept ++ (if lastCR then [x0d] else []) ->
  properEnd lastCR rest = true ->
  convertLoop encoding buf fuel (length done) lastCR lastWriteIndex out =
  Some (mkStream
          (written out ++ kept
             ++ strip ((if lastCR then [x0d] else []) ++ rest))
          true).
Proof.
  induction rest as [| x rest IH];
    intros done lastCR lw out kept fuel E F L K P; [discriminate |].
  destruct fuel as [| fuel]; [lia |]. simpl in F.
  rewrite (convertLoop_round fuel done x rest lastCR lw out E).
  assert (E' : buf = (done ++ [x]) ++ rest)
    by now rewrite <- app_assoc.
  assert (LS : length (done ++ [x]) = S (length done))
    by (rewrite length_app; simpl; lia).
  destruct (isCRbyte x) eqn:C.
  - (* a CR: it is held back *)
    apply isCRbyte_eq in C as ->.
    destruct rest as [| y rest]; [simpl in P; discriminate |].
    rewrite <- LS.
    rewrite (IH (done ++ [x0d]) true lw out
                (kept ++ (if lastCR then [x0d] else [])) fuel E');
      [| lia | lia | | exact P].
    + destruct lastCR; cbn [app].
      * rewrite (strip_cr_keep x0d (y :: rest)) by reflexivity.
        now rewrite <- !app_assoc.
      * now rewrite app_nil_r.
    + rewrite skipn_snoc by exact L. now rewrite K.
  - destruct (lastCR && isLFbyte x) eqn:CL.
    + (* the LF of a pair: the pending bytes are written without the CR *)
      apply andb_true_iff in CL as [-> Lx].
      apply isLFbyte_eq in Lx as ->.
      destruct rest as [| y rest]; [simpl in P; discriminate |].
      assert (W : slice lw (length done - 1) buf = kept).
      { pose proof (f_equal (@length byte) K) as LK.
        rewrite length_skipn, length_app in LK. simpl in LK.
        unfold slice. rewrite E, skipn_app, K.
        replace (length done - 1 - lw) with (length kept) by lia.
        rewrite <- !app_assoc, firstn_app, Nat.sub_diag, firstn_all.
        simpl. apply app_nil_r. }
      rewrite W, <- LS.
      rewrite (IH (done ++ [x0a]) false (length done) (write kept out)
                  [x0a] fuel E'); [| lia | lia | | exact P].
      * cbn [written write app]. rewrite strip_cr_lf.
        now rewrite <- !app_assoc.
      * rewrite skipn_app, skipn_all, Nat.sub_diag. reflexivity.
    + assert (KX : strip ((if lastCR then [x0d] else []) ++ x :: rest)
                   = (if lastCR then [x0d] else []) ++ x :: strip rest).
      { destruct lastCR; cbn [app].
        - simpl in CL. rewrite strip_cr_keep by exact CL.
          now rewrite strip_keep.
        - now rewrite strip_keep. }
      rewrite KX.
      destruct rest as [| y rest].
      * (* the last unit: everything pending is flushed *)
        cbn [length Nat.eqb].
        destruct fuel as [| fuel]; [lia |].
        rewrite convertLoop_exit
          by (rewrite E, length_app; simpl; lia).
        cbn [end_ written]. do 2 f_equal.
        rewrite <- LS, E', slice_done by lia.
        rewrite skipn_snoc by exact L. rewrite K.
        now rewrite <- !app_assoc.
      * cbn [length Nat.eqb]. rewrite <- LS.
        rewrite (IH (done ++ [x]) false lw out
                    (kept ++ (if lastCR then [x0d] else []) ++ [x]) fuel E');
          [| simpl in *; lia | lia | | ].
        -- now rewrite <- !app_assoc.
        -- rewrite skipn_snoc by exact L. rewrite K.
           now rewrite <- !app_assoc, app_nil_r.
        -- cbn [properEnd] in P. rewrite C in P. exact P.
Qed.

End RewriterOneByte.

(** The rewrite of a file with one-byte units whose last unit is one at
    which the loop flushes: the BOM, then the content without the CR of
    each CRLF pair. *)
Lemma convert_strips (content : buffer) :
  let bom := detectBomFromBuffer encoding (slice 0 4 content) in
  let n := getBytesPerBom encoding (Some bom) in
  getBytesPerControlChar encoding (Some bom) = 1 ->
  properEnd false (skipn n content) = true ->
  convertFileFromDosToUnix encoding content =
  Some (mkStream (firstn n content ++ strip (skipn n content)) true).
Proof.
  intros bom n W P.
  assert (N : n < length content).
  { apply skipn_nonempty_lt. intros E. rewrite E in P. discriminate. }
  assert (LD : length (firstn n content) = n)
    by (rewrite length_firstn; lia).
  pose proof (convertLoop_strips content W (skipn n content)
                (firstn n content) false 0 createWriteStream
                (firstn n content) (S (length content))) as H.
  rewrite LD in H. unfold convertFileFromDosToUnix. fold bom. fold n.
  apply H.
  - now rewrite firstn_skipn.
  - rewrite length_skipn. lia.
  - lia.
  - simpl. now rewrite app_nil_r.
  - exact P.
Qed.

(** ** The end of the content *)

Lemma properEnd_intro (l : buffer) : forall lastCR : bool,
  l <> [] ->
  ~ EndsWith [x0d] l ->
  ~ EndsWith [x0d; x0a] l ->
  (lastCR = true -> l <> [x0a]) ->
  properEnd lastCR l = true.
Proof.
  induction l as [| x l IH]; intros lastCR N E1 E2 E3; [congruence |].
  destruct l as [| y l].
  - cbn [properEnd]. apply andb_true_iff. split.
    + destruct (isCRbyte x) eqn:C; [| reflexivity].
      apply isCRbyte_eq in C as ->. exfalso. apply E1. now exists [].
    + destruct lastCR; [| reflexivity]. simpl.
      destruct (isLFbyte x) eqn:C; [| reflexivity].
      apply isLFbyte_eq in C as ->. exfalso. now apply E3.
  - cbn [properEnd]. apply IH.
    + discriminate.
    + intros [pre E]. apply E1. exists (x :: pre). now rewrite E.
    + intros [pre E]. apply E2. exists (x :: pre). now rewrite E.
    + intros C E. apply isCRbyte_eq in C as ->.
      apply E2. exists []. now rewrite E.
Qed.

(** ** The BOM of the rewritten content *)

Lemma starts_with_firstn (sig : buffer) : forall (n : nat) (b : buffer),
  length sig <= n -> starts_with sig (firstn n b) = starts_with sig b.
Proof.
  induction sig as [| s sig IH]; intros n b L; [reflexivity |].
  destruct n as [| n]; [simpl in L; lia |].
  destruct b as [| y b]; [reflexivity |].
  simpl. rewrite IH by (simpl in L; lia). reflexivity.
Qed.

Lemma starts_with_app (sig : buffer) : forall b : buffer,
  starts_with sig b = true -> b = sig ++ skipn (length sig) b.
Proof.
  induction sig as [| s sig IH]; intros [| y b] H; try reflexivity;
    [discriminate |].
  simpl in H. apply andb_true_iff in H as [E H].
  apply byte_dec_bl in E as ->. simpl. f_equal. now apply IH.
Qed.

Lemma starts_with_strip (sig : buffer) : forall l : buffer,
  ~ In x0a sig ->
  starts_with sig (strip l) = true -> starts_with sig l = true.
Proof.
  induction sig as [| s sig IH]; intros l NI H; [reflexivity |].
  destruct l as [| x l]; [exact H |].
  destruct l as [| y l]; [exact H |].
  change (strip (x :: y :: l))
    with (if isCRbyte x && isLFbyte y then strip (y :: l)
          else x :: strip (y :: l)) in H.
  destruct (isCRbyte x && isLFbyte y) eqn:C.
  - apply andb_true_iff in C as [_ Ly]. apply isLFbyte_eq in Ly as ->.
    rewrite strip_keep in H by reflexivity.
    simpl in H. apply andb_true_iff in H as [E _].
    apply byte_dec_bl in E. exfalso. apply NI. now left.
  - simpl in H |- *. apply andb_true_iff in H as [E H]. rewrite E. simpl.
    apply IH; [| exact H]. intros I. apply NI. now right.
Qed.

Lemma detect_none_tests (b : buffer) :
  detectBomFromBuffer encoding b = BomNone ->
  forall v, v <> BomNone -> starts_with (Encoding.bomBytes v) b = false.
Proof.
  cbn [detectBomFromBuffer encoding]. unfold Encoding.detectBomFromBuffer.
  intros H v N.
  destruct (starts_with (Encoding.bomBytes UTF32BE) b) eqn:T1; [discriminate |].
  destruct (starts_with (Encoding.bomBytes UTF32LE) b) eqn:T2; [discriminate |].
  destruct (starts_with (Encoding.bomBytes UTF8) b) eqn:T3; [discriminate |].
  destruct (starts_with (Encoding.bomBytes UTF16BE) b) eqn:T4; [discriminate |].
  destruct (starts_with (Encoding.bomBytes UTF16LE) b) eqn:T5; [discriminate |].
  destruct v; congruence.
Qed.

Lemma detect_none_strip (l : buffer) :
  detectBomFromBuffer encoding (slice 0 4 l) = BomNone ->
  detectBomFromBuffer encoding (slice 0 4 (strip l)) = BomNone.
Proof.
  intros H. pose proof (detect_none_tests _ H) as T.
  assert (K : forall v, v <> BomNone ->
                starts_with (Encoding.bomBytes v) (slice 0 4 (strip l)) = false).
  { intros v N. specialize (T v N).
    unfold slice in *. simpl skipn in *. rewrite Nat.sub_0_r in *.
    rewrite starts_with_firstn in * by (destruct v; simpl; lia).
    destruct (starts_with (Encoding.bomBytes v) (strip l)) eqn:S; [| reflexivity].
    apply starts_with_strip in S; [congruence |].
    destruct v; simpl; intuition discriminate. }
  cbn [detectBomFromBuffer encoding]. unfold Encoding.detectBomFromBuffer.
  rewrite !K by discriminate. reflexivity.
Qed.

Lemma detect_utf8_shape (b : buffer) :
  detectBomFromBuffer encoding (slice 0 4 b) = UTF8 ->
  b = [xef; xbb; xbf] ++ skipn 3 b.
Proof.
  cbn [detectBomFromBuffer encoding]. unfold Encoding.detectBomFromBuffer.
  intros H.
  destruct (starts_with (Encoding.bomBytes UTF32BE) (slice 0 4 b)); [discriminate |].
  destruct (starts_with (Encoding.bomBytes UTF32LE) (slice 0 4 b)); [discriminate |].
  destruct (starts_with (Encoding.bomBytes UTF8) (slice 0 4 b)) eqn:T.
  - unfold slice in T. simpl skipn in T. rewrite Nat.sub_0_r in T.
    rewrite starts_with_firstn in T by (simpl; lia).
    apply (starts_with_app _ _ T).
  - destruct (starts_with (Encoding.bomBytes UTF16BE) (slice 0 4 b)); [discriminate |].
    destruct (starts_with (Encoding.bomBytes UTF16LE) (slice 0 4 b)); discriminate.
Qed.

(** The rewritten content has the BOM of the content. *)
Lemma detect_rewritten (content : buffer) :
  let bom := detectBomFromBuffer encoding (slice 0 4 content) in
  let n := getBytesPerBom encoding (Some bom) in
  getBytesPerControlChar encoding (Some bom) = 1 ->
  detectBomFromBuffer encoding
    (slice 0 4 (firstn n content ++ strip (skipn n content))) = bom.
Proof.
  intros bom n W.
  destruct (one_byte_variant bom W) as [B | B].
  - assert (n = 0) by (unfold n; now rewrite B). subst n.
    rewrite H. simpl firstn. simpl skipn. cbn [app].
    rewrite B. apply detect_none_strip. exact B.
  - assert (n = 3) by (unfold n; now rewrite B).
    rewrite H, B. rewrite (detect_utf8_shape content B) at 1.
    reflexivity.
Qed.

(** ** One-byte units *)

Lemma isCR_unit bom x :
  getBytesPerControlChar encoding (Some bom) = 1 ->
  isCR encoding (Some bom) [x] = isCRbyte x.
Proof.
  intros W. destruct (one_byte_variant bom W) as [-> | ->];
    cbn; apply andb_true_r.
Qed.

Lemma isLF_unit bom x :
  getBytesPerControlChar encoding (Some bom) = 1 ->
  isLF encoding (Some bom) [x] = isLFbyte x.
Proof. apply isLF_one_byte. Qed.

Lemma concat_unitsOfBytes (l : buffer) : concat (unitsOfBytes l) = l.
Proof. induction l as [| x l IH]; simpl; [| rewrite IH]; reflexivity. Qed.

Lemma fullUnit_unitsOfBytes bom (l : buffer) :
  getBytesPerControlChar encoding (Some bom) = 1 ->
  Forall (fullUnit encoding (Some bom)) (unitsOfBytes l).
Proof.
  intros W. apply Forall_map, Forall_forall. intros x _.
  unfold fullUnit. now rewrite W.
Qed.

Lemma first_true {A} (P : A -> bool) (l : list A) :
  Forall (fun x => P x = false) l
  \/ exists pre z rest,
       l = pre ++ z :: rest /\ Forall (fun x => P x = false) pre /\ P z = true.
Proof.
  induction l as [| x l [IH | (pre & z & rest & E & F & T)]].
  - now left.
  - destruct (P x) eqn:Px.
    + right. now exists [], x, l.
    + left. now constructor.
  - destruct (P x) eqn:Px.
    + right. now exists [], x, l.
    + right. exists (x :: pre), z, rest. rewrite E.
      repeat split; [now constructor | exact T].
Qed.

(** A file that is classified [bad] has no binary-indicating unit. *)
Lemma classify_bad_no_binary (content : buffer) :
  let f := plain content in
  let bom := detectBomFromBuffer encoding (slice 0 4 content) in
  getBytesPerControlChar encoding (Some bom) = 1 ->
  classify encoding f = Some (Done bad) ->
  Forall (fun x => isBinary encoding (Some bom) [x] = false)
         (payload encoding f).
Proof.
  intros f bom W C.
  destruct (first_true (fun x => isBinary encoding (Some bom) [x])
                       (payload encoding f))
    as [F | (pre & z & rest & E & F & T)]; [exact F |].
  exfalso.
  destruct (determine_binary encoding f (unitsOfBytes pre) [z] rest)
    as (r & R & _).
  - apply encoding_unit_not_empty.
  - reflexivity.
  - rewrite concat_unitsOfBytes. exact E.
  - now apply fullUnit_unitsOfBytes.
  - apply Forall_map. exact F.
  - unfold fullUnit. cbn [length]. symmetry. exact W.
  - exact T.
  - unfold classify in C. rewrite R in C. discriminate C.
Qed.

Lemma strip_unfold x y (l : buffer) :
  strip (x :: y :: l) =
  if isCRbyte x && isLFbyte y then strip (y :: l) else x :: strip (y :: l).
Proof. reflexivity. Qed.

Lemma In_strip (l : buffer) : forall x, In x (strip l) -> In x l.
Proof.
  induction l as [| a l IH]; intros x H; [exact H |].
  destruct l as [| b l]; [exact H |].
  rewrite strip_unfold in H.
  destruct (isCRbyte a && isLFbyte b).
  - right. now apply IH.
  - destruct H as [-> | H]; [now left | right; now apply IH].
Qed.

Lemma strip_nonempty (l : buffer) : l <> [] -> strip l <> [].
Proof.
  destruct l as [| a [| b l]]; intros N; [congruence | discriminate |].
  rewrite strip_unfold.
  destruct (isCRbyte a && isLFbyte b) eqn:C; [| discriminate].
  apply andb_true_iff in C as [_ C]. apply isLFbyte_eq in C as ->.
  rewrite strip_keep by reflexivity. discriminate.
Qed.

(** Without a CR in front of a CRLF pair, no CRLF pair is left. *)
Lemma hasCRLF_strip bom (l : buffer) :
  getBytesPerControlChar encoding (Some bom) = 1 ->
  ~ CRbeforeCRLF l ->
  hasCRLF encoding (Some bom) (unitsOfBytes (strip l)) = false.
Proof.
  intros W. induction l as [| x l IH]; intros N; [reflexivity |].
  assert (N' : ~ CRbeforeCRLF l).
  { intros (pre & post & E). apply N. exists (x :: pre), post.
    now rewrite E. }
  specialize (IH N').
  destruct l as [| y l]; [reflexivity |].
  rewrite strip_unfold.
  destruct (isCRbyte x && isLFbyte y) eqn:C; [exact IH |].
  change (unitsOfBytes (x :: strip (y :: l)))
    with ([x] :: unitsOfBytes (strip (y :: l))).
  rewrite hasCRLF_cons, IH, orb_false_r, isCR_unit by exact W.
  destruct (isCRbyte x) eqn:Cx; [| reflexivity].
  simpl in C. apply isCRbyte_eq in Cx as ->. cbn [andb].
  destruct l as [| z l].
  - cbn [strip unitsOfBytes map]. rewrite isLF_unit by exact W. exact C.
  - rewrite strip_unfold.
    destruct (isCRbyte y && isLFbyte z) eqn:D.
    + apply andb_true_iff in D as [Dy Dz].
      apply isCRbyte_eq in Dy as ->. apply isLFbyte_eq in Dz as ->.
      exfalso. apply N. now exists [], l.
    + change (unitsOfBytes (y :: strip (z :: l)))
        with ([y] :: unitsOfBytes (strip (z :: l))).
      cbv beta iota. rewrite isLF_unit by exact W. exact C.
Qed.

(** The byte-length law of [strip]. *)
Lemma length_strip (l : buffer) : length (strip l) + countCRLF l = length l.
Proof.
  induction l as [| x l IH]; [reflexivity |].
  destruct l as [| y l]; [reflexivity |].
  rewrite strip_unfold.
  change (countCRLF (x :: y :: l))
    with ((if isCRbyte x && isLFbyte y then 1 else 0) + countCRLF (y :: l)).
  destruct (isCRbyte x && isLFbyte y); simpl length in *; lia.
Qed.

(** ** Rewriting and classifying again *)

(** The claim C3 as stated fails: "a\r\r\nb" is classified [bad], its
    rewrite is "a\r\nb", and that is classified [bad] again. *)
Lemma rewrite_can_leave_crlf :
  ~ (forall content out : buffer,
       classify encoding (plain content) = Some (Done bad) ->
       rewritten encoding content = Some out ->
       classify encoding (plain out) = Some (Done good)).
Proof.
  intros H.
  specialize (H [x61; x0d; x0d; x0a; x62] [x61; x0d; x0a; x62]
                eq_refl eq_refl).
  discriminate H.
Qed.

(** C3, amended. For a file without BOM or with the UTF-8 BOM that is
    classified [bad], in which no CRLF pair comes immediately after another
    CR and which ends neither with a CR nor with a CRLF pair, the rewrite
    ends the output stream, and the content it has written is classified
    [good]. *)
Theorem rewrite_then_classify_good (content : buffer) :
  let f := plain content in
  getBytesPerControlChar encoding (detectBom encoding f) = 1 ->
  classify encoding f = Some (Done bad) ->
  ~ CRbeforeCRLF (payload encoding f) ->
  ~ EndsWith [x0d] (payload encoding f) ->
  ~ EndsWith [x0d; x0a] (payload encoding f) ->
  exists out,
    convertFileFromDosToUnix encoding content = Some (mkStream out true)
    /\ classify encoding (plain out) = Some (Done good).
Proof.
  intros f W C N E1 E2.
  set (bom := detectBomFromBuffer encoding (slice 0 4 content)) in *.
  set (n := getBytesPerBom encoding (Some bom)).
  change (detectBom encoding f) with (Some bom) in *.
  change (payload encoding f) with (skipn n content) in *.
  assert (NE : skipn n content <> []).
  { intros E.
    destruct (classify_no_content encoding f
                (encoding_unit_not_empty _) E); congruence. }
  assert (P : properEnd false (skipn n content) = true)
    by (apply properEnd_intro; auto; discriminate).
  assert (L : n < length content) by now apply skipn_nonempty_lt.
  exists (firstn n content ++ strip (skipn n content)). split.
  - now apply convert_strips.
  - set (out := firstn n content ++ strip (skipn n content)).
    assert (D : detectBom encoding (plain out) = Some bom).
    { unfold detectBom. cbn [bomProbeFails plain bytes]. f_equal.
      now apply detect_rewritten. }
    assert (PO : payload encoding (plain out) = strip (skipn n content)).
    { unfold payload. rewrite D. cbn [plain bytes]. fold n. unfold out.
      rewrite skipn_app, length_firstn.
      replace (Nat.min n (length content)) with n by lia.
      rewrite Nat.sub_diag, skipn_firstn_comm, Nat.sub_diag. reflexivity. }
    destruct (determine_units encoding (plain out)
                (unitsOfBytes (strip (skipn n content))))
      as (r & R & _).
    + apply encoding_unit_not_empty.
    + reflexivity.
    + now rewrite concat_unitsOfBytes.
    + intros E. apply (strip_nonempty _ NE).
      destruct (strip (skipn n content)); [reflexivity | discriminate].
    + rewrite D. now apply fullUnit_unitsOfBytes.
    + rewrite D. apply Forall_map, Forall_forall. intros x I.
      apply In_strip in I.
      pose proof (classify_bad_no_binary content W C) as B.
      rewrite Forall_forall in B. now apply B.
    + unfold classify. rewrite R, D.
      rewrite (scanFrom_hasCRLF encoding (Some bom)
                 (encoding_cr_is_not_lf (Some bom))).
      rewrite (hasCRLF_strip bom _ W N). reflexivity.
Qed.

Lemma rewrite_then_classify_good_witness :
  exists out,
    convertFileFromDosToUnix encoding [x61; x0d; x0a; x62]
    = Some (mkStream out true)
    /\ classify encoding (plain out) = Some (Done good).
Proof.
  apply (rewrite_then_classify_good [x61; x0d; x0a; x62]).
  - reflexivity.
  - reflexivity.
  - intros (pre & post & E).
    destruct pre as [| a [| b [| c [| d pre]]]]; try discriminate;
      destruct pre; discriminate.
  - intros (pre & E).
    destruct pre as [| a [| b [| c [| d pre]]]]; try discriminate;
      destruct pre; discriminate.
  - intros (pre & E).
    destruct pre as [| a [| b [| c [| d pre]]]]; try discriminate;
      destruct pre; discriminate.
Defined.

(** ** The rewriter on concrete files *)

(** C1, on the code: for the file "a\r\n" the loop writes "a" when it meets
    the LF and is over after it; the flush of the tail is on the branch of a
    unit that is not the LF of a pair, so the LF is never written and
    [outFile.end] is never called.  The claim has "a\n". *)
Theorem convert_loses_final_crlf :
  convertFileFromDosToUnix encoding [x61; x0d; x0a]
  = Some (mkStream [x61] false).
Proof. reflexivity. Qed.

(** C6, on the code, for the encoder of the spec: the UTF-16 LE file
    FF FE "a\r\nb" is classified [bad], and the rewrite leaves it as it is.
    Line 130 tests for CR without passing [bom], so the 2-byte unit 0D 00
    is compared with the CR of a file without BOM and never matches. *)
Theorem utf16le_scenario :
  classify encoding
    (plain [xff; xfe; x61; x00; x0d; x00; x0a; x00; x62; x00])
  = Some (Done bad)
  /\ rewritten encoding [xff; xfe; x61; x00; x0d; x00; x0a; x00; x62; x00]
     = Some [xff; xfe; x61; x00; x0d; x00; x0a; x00; x62; x00].
Proof. split; reflexivity. Qed.

(** C9, on the code: the file "a\r" has no CR unit followed by an LF unit
    and is classified [good]; its rewrite writes nothing, since the last
    unit is a CR and the flush of the tail is not on that branch: the file
    is left empty.  The claim has the content unchanged. *)
Theorem convert_good_file_with_final_cr :
  classify encoding (plain [x61; x0d]) = Some (Done good)
  /\ convertFileFromDosToUnix encoding [x61; x0d] = Some (mkStream [] false).
Proof. split; reflexivity. Qed.

(** ** The event-emitting pipeline *)

Module PipelineFacts.

Import Strings.String.
Local Open Scope string_scope.

(** With [this] bound to the converter the callback of the filter step
    emits one event for its file. *)
Lemma announce_bound_emits (i : Pipeline.FileInfo) (log : list Pipeline.Event) :
  exists name message,
    Pipeline.announce Pipeline.TheConverter i log =
    (Pipeline.Normal (Status_eqb (Pipeline.status i) bad),
     (log ++ [Pipeline.FileEvent name (Pipeline.path i) (Pipeline.status i)
                                 message])%list).
Proof.
  destruct i as [p []]; do 2 eexists; reflexivity.
Qed.

(** The chain stops at the first file: [this.emit] throws. *)
Lemma chain_throws_at_first_file p st l :
  Pipeline.chain (Pipeline.mkInfo p st :: l) [] =
  (Pipeline.Throw
     (Pipeline.TypeError "Cannot read property 'emit' of undefined"), []).
Proof. destruct st; reflexivity. Qed.

(** C7, on the code: whatever the resolved files are, the call of
    [process] ends with a [ReferenceError] for [done], and the promise chain
    built until then emits no event at all: the callback of [filter] runs
    with [this] undefined and throws at the first file, no statement emits
    [end] or [error], and the last step refers to the undeclared [done]. *)
Theorem process_emits_nothing (resolved : list Pipeline.FileInfo) :
  Pipeline.emitted (Pipeline.process resolved) = []
  /\ Pipeline.call (Pipeline.process resolved)
     = Pipeline.Throw (Pipeline.ReferenceError "done")
  /\ Pipeline.settled (Pipeline.process resolved) <> Pipeline.Normal tt.
Proof.
  destruct resolved as [| [p st] l].
  - vm_compute. split; [reflexivity | split; [reflexivity | discriminate]].
  - unfold Pipeline.process. rewrite chain_throws_at_first_file.
    split; [reflexivity | split; [reflexivity | discriminate]].
Qed.

End PipelineFacts.

(** * Further properties of the engine *)

(** ** The scan under arbitrary failures *)

Lemma length_slice_le (o n : nat) (b : buffer) :
  length (slice o (o + n) b) <= n /\ length (slice o (o + n) b) <= length b - o.
Proof.
  unfold slice. rewrite length_firstn, length_skipn. lia.
Qed.

(** What one request does to the reader, whatever it delivers. *)
Lemma read_cases (n : nat) (r : BinaryReader) :
  (read n r = (ReadErr, mkReader (source r) (offset r) (S (requests r)))
   /\ readFailsAt (source r) = Some (requests r))
  \/ (read n r =
      (ReadOk (slice (offset r) (offset r + n) (bytes (source r))),
       mkReader (source r)
                (offset r + length (slice (offset r) (offset r + n)
                                          (bytes (source r))))
                (S (requests r)))
      /\ readFailsAt (source r) <> Some (requests r)).
Proof.
  unfold read. destruct (readFailsAt (source r)) as [k |].
  - destruct (Nat.eqb_spec k (requests r)) as [-> | N].
    + now left.
    + right. split; [reflexivity | congruence].
  - right. split; [reflexivity | discriminate].
Qed.

Section ScanAnyFile.

Variable enc : Encoder.
Variable bom : jsbom.

Local Abbreviation w := (getBytesPerControlChar enc bom).


(** [good] and [bad] are reported at the end of the file only. *)
Lemma readLoop_status_at_eof : forall fuel needsFixing lastCR r s r',
  offset r <= length (bytes (source r)) ->
  readLoop enc bom fuel needsFixing lastCR r = Some (Done s, r') ->
  s = good \/ s = bad ->
  offset r' = length (bytes (source r)).
Proof.
  induction fuel as [| fuel IH]; intros nf lcr r s r' O R S; [discriminate |].
  cbn [readLoop] in R.
  destruct (read_cases w r) as [[E _] | [E _]]; rewrite E in R.
  - injection R as <- _. destruct S; discriminate.
  - pose proof (length_slice_le (offset r) w (bytes (source r))) as [L1 L2].
    destruct (length (slice (offset r) (offset r + w) (bytes (source r))) =? w).
    + destruct (doesByteSequenceSuggestBinary enc _ bom).
      { injection R as <- _. destruct S; discriminate. }
      destruct (isByteSequenceCR enc _ bom).
      * unfold isOffsetOutOfWindow in R; cbn [source offset] in R.
        destruct (Nat.leb_spec (length (bytes (source r)))
                    (offset r + length (slice (offset r) (offset r + w)
                                              (bytes (source r))))).
        -- injection R as _ <-. cbn [offset]. lia.
        -- apply IH in R; [exact R | cbn [source offset]; lia | exact S].
      * unfold isOffsetOutOfWindow in R; cbn [source offset] in R.
        destruct (Nat.leb_spec (length (bytes (source r)))
                    (offset r + length (slice (offset r) (offset r + w)
                                              (bytes (source r))))).
        -- injection R as _ <-. cbn [offset]. lia.
        -- apply IH in R; [exact R | cbn [source offset]; lia | exact S].
    + destruct (0 <? length (slice (offset r) (offset r + w)
                                   (bytes (source r)))).
      * injection R as <- _. destruct S; discriminate.
      * discriminate.
Qed.

End ScanAnyFile.



(** X2. A file is reported [good] or [bad] only when the reader has consumed
    all of it. *)
Theorem good_or_bad_after_whole_file (enc : Encoder) (f : File) (s : Status) :
  classify enc f = Some (Done s) ->
  s = good \/ s = bad ->
  bytesConsumed enc f = Some (length (bytes f)).
Proof.
  unfold classify, bytesConsumed, determineProcessingStatusOfFile.
  intros C S.
  destruct (0 <? getBytesPerBom enc (detectBom enc f)).
  - destruct (read_cases (getBytesPerBom enc (detectBom enc f))
                         (mkReader f 0 0)) as [[E _] | [E _]];
      rewrite E in *; cbn [source offset requests] in *.
    + cbn in C. injection C as <-. destruct S; discriminate.
    + destruct (_ <? _).
      * cbn in C. injection C as <-. destruct S; discriminate.
      * pose proof (length_slice_le 0 (getBytesPerBom enc (detectBom enc f))
                                    (bytes f)) as [_ L].
        destruct (readLoop enc (detectBom enc f) _ false false _)
          as [[o r] |] eqn:R; [| discriminate].
        cbn in C. injection C as ->. cbn [option_map snd]. f_equal.
        apply (readLoop_status_at_eof enc _ _ _ _ _ _ _) in R;
          [exact R | cbn [source offset]; lia | exact S].
  - destruct (readLoop enc (detectBom enc f) _ false false _)
      as [[o r] |] eqn:R; [| discriminate].
    cbn in C. injection C as ->. cbn [option_map snd]. f_equal.
    apply (readLoop_status_at_eof enc _ _ _ _ _ _ _) in R;
      [exact R | cbn [source offset]; lia | exact S].
Qed.

Lemma good_or_bad_after_whole_file_witness :
  bytesConsumed encoding (plain [xff; xfe; x0d; x00; x0a; x00]) = Some 6.
Proof.
  apply (good_or_bad_after_whole_file encoding
           (plain [xff; xfe; x0d; x00; x0a; x00]) bad).
  - reflexivity.
  - now right.
Defined.

(** ** Read failures *)

Section ScanWithFailure.

Variable enc : Encoder.
Variable bom : jsbom.

Local Abbreviation w := (getBytesPerControlChar enc bom).

Hypothesis unit_not_empty : 0 < w.

(** A round over a whole unit that is not the last one, when this request
    is not the one that fails. *)
Lemma readLoop_step_unless_failure fuel needsFixing lastCR r u rest :
  readFailsAt (source r) <> Some (requests r) ->
  skipn (offset r) (bytes (source r)) = u ++ rest ->
  fullUnit enc bom u ->
  isBinary enc bom u = false ->
  rest <> [] ->
  readLoop enc bom (S fuel) needsFixing lastCR r =
  readLoop enc bom fuel (nextNeedsFixing enc bom needsFixing lastCR u)
           (isCR enc bom u)
           (mkReader (source r) (offset r + w) (S (requests r))).
Proof.
  intros Hok E Hu Hb Hrest. unfold fullUnit in Hu.
  cbn [readLoop].
  destruct (read_cases w r) as [[_ F] | [-> _]]; [congruence |].
  rewrite (slice_prefix E (eq_sym Hu)).
  rewrite Hu, Nat.eqb_refl.
  unfold isBinary in Hb. rewrite Hb.
  unfold isOffsetOutOfWindow; cbn [source offset].
  assert (L : offset r + w < length (bytes (source r))).
  { apply skipn_nonempty_lt. rewrite <- Hu, (skipn_more E). exact Hrest. }
  destruct (Nat.leb_spec (length (bytes (source r))) (offset r + w));
    [lia |].
  unfold nextNeedsFixing, isCR, isLF.
  destruct (isByteSequenceCR enc u bom); reflexivity.
Qed.

(** The scan ends with [error] at the request that fails, after the units
    [pre] that were read before it. *)
Lemma readLoop_failure pre : forall fuel needsFixing lastCR r rest,
  readFailsAt (source r) = Some (requests r + length pre) ->
  skipn (offset r) (bytes (source r)) = concat pre ++ rest ->
  rest <> [] ->
  Forall (fullUnit enc bom) pre ->
  Forall (fun u => isBinary enc bom u = false) pre ->
  length pre < fuel ->
  exists r',
    readLoop enc bom fuel needsFixing lastCR r = Some (Done error, r')
    /\ offset r' = offset r + length (concat pre).
Proof.
  induction pre as [| p pre IH]; intros fuel nf lcr r rest K E N F B L.
  - destruct fuel as [| fuel]; [lia |].
    simpl in K. rewrite Nat.add_0_r in K.
    rewrite (readLoop_read_error enc bom fuel nf lcr r K).
    eexists; split; [reflexivity |]. cbn [offset]. simpl. lia.
  - inversion F as [| ? ? Fp Fpre]; subst.
    inversion B as [| ? ? Bp Bpre]; subst.
    destruct fuel as [| fuel]; [simpl in L; lia |].
    simpl in E. rewrite <- app_assoc in E.
    assert (Hrest : concat pre ++ rest <> []).
    { destruct (concat pre); simpl; [exact N | discriminate]. }
    rewrite (readLoop_step_unless_failure fuel nf lcr r p (concat pre ++ rest));
      try assumption.
    + destruct (IH fuel (nextNeedsFixing enc bom nf lcr p) (isCR enc bom p)
                   (mkReader (source r) (offset r + w) (S (requests r)))
                   rest)
        as (r' & R & O); cbn [source offset requests]; try assumption.
      * rewrite K. f_equal. simpl. lia.
      * rewrite <- Fp. apply (skipn_more E).
      * simpl in L. lia.
      * exists r'. split; [exact R |].
        rewrite O. cbn [offset]. simpl. rewrite length_app, Fp. lia.
    + rewrite K. simpl. intros [= H]. lia.
Qed.

End ScanWithFailure.

(** The start of the classification when the request for the BOM, if there
    is one, does not fail. *)
Lemma determine_start_unless_failure enc f :
  (0 < getBytesPerBom enc (detectBom enc f) -> readFailsAt f <> Some 0) ->
  getBytesPerBom enc (detectBom enc f) <= length (bytes f) ->
  determineProcessingStatusOfFile enc f =
  readLoop enc (detectBom enc f) (S (length (bytes f))) false false
           (mkReader f (getBytesPerBom enc (detectBom enc f))
                     (if 0 <? getBytesPerBom enc (detectBom enc f)
                      then 1 else 0)).
Proof.
  intros Hok L. unfold determineProcessingStatusOfFile.
  destruct (Nat.ltb_spec 0 (getBytesPerBom enc (detectBom enc f))) as [P | P].
  - destruct (read_cases (getBytesPerBom enc (detectBom enc f))
                         (mkReader f 0 0)) as [[_ F] | [-> _]].
    + cbn [source requests] in F. now apply Hok in P.
    + cbn [source offset requests].
      assert (E : length (slice 0 (0 + getBytesPerBom enc (detectBom enc f))
                                (bytes f))
                  = getBytesPerBom enc (detectBom enc f)).
      { unfold slice. simpl. rewrite Nat.sub_0_r, length_firstn. lia. }
      rewrite E.
      destruct (Nat.ltb_spec (getBytesPerBom enc (detectBom enc f))
                             (getBytesPerBom enc (detectBom enc f)));
        [lia | reflexivity].
  - replace (getBytesPerBom enc (detectBom enc f)) with 0 by lia.
    reflexivity.
Qed.

(** X3. When the reader fails at a request for a control unit, after the
    complete, non-binary units [pre], the status is [error], whatever
    [pre] holds and whatever follows, and the reader has not moved past
    [pre]. *)
Theorem read_failure_is_error (enc : Encoder) (f : File)
        (pre : list buffer) (rest : buffer) :
  let bom := detectBom enc f in
  0 < getBytesPerControlChar enc bom ->
  payload enc f = concat pre ++ rest ->
  rest <> [] ->
  Forall (fullUnit enc bom) pre ->
  Forall (fun u => isBinary enc bom u = false) pre ->
  readFailsAt f =
    Some ((if 0 <? getBytesPerBom enc bom then 1 else 0) + length pre) ->
  classify enc f = Some (Done error)
  /\ bytesConsumed enc f =
     Some (getBytesPerBom enc bom + length (concat pre)).
Proof.
  intros bom W E N F B K.
  assert (NE : payload enc f <> []).
  { rewrite E. destruct (concat pre); simpl; [exact N | discriminate]. }
  pose proof (payload_bound enc f NE) as LB.
  unfold classify, bytesConsumed.
  rewrite determine_start_unless_failure; [| | exact LB].
  - fold bom.
    destruct (readLoop_failure enc bom W pre (S (length (bytes f)))
                false false
                (mkReader f (getBytesPerBom enc bom)
                          (if 0 <? getBytesPerBom enc bom then 1 else 0))
                rest)
      as (r & R & O); cbn [source offset requests]; try assumption.
    + pose proof (length_concat_units enc bom pre F) as LC.
      pose proof (f_equal (@length byte) E) as LE.
      unfold payload in LE. rewrite length_skipn, length_app in LE.
      fold bom in LE. unfold buffer in *.
      assert (0 < length rest) by (destruct rest; [congruence | simpl; lia]).
      nia.
    + rewrite R. cbn [option_map fst snd]. now rewrite O.
  - intros P. fold bom in K, P. rewrite K.
    destruct (Nat.ltb_spec 0 (getBytesPerBom enc bom)); [| lia].
    discriminate.
Qed.

Lemma read_failure_is_error_witness :
  classify encoding (mkFile [x61; x0d; x0a; x00] false (Some 3))
  = Some (Done error)
  /\ bytesConsumed encoding (mkFile [x61; x0d; x0a; x00] false (Some 3))
     = Some 3.
Proof.
  apply (read_failure_is_error encoding
           (mkFile [x61; x0d; x0a; x00] false (Some 3))
           [[x61]; [x0d]; [x0a]] [x00]).
  - apply encoding_unit_not_empty.
  - reflexivity.
  - discriminate.
  - repeat constructor.
  - repeat constructor.
  - reflexivity.
Defined.



(** X6. A file without content is given no status but [error]: for any encoder
    with non-empty control units, whatever fails. *)
Theorem no_content_no_status (enc : Encoder) (f : File) (s : Status) :
  0 < getBytesPerControlChar enc (detectBom enc f) ->
  payload enc f = [] ->
  classify enc f = Some (Done s) ->
  s = error.
Proof.
  intros W E C.
  destruct (classify_no_content enc f W E) as [P | P]; congruence.
Qed.

Lemma no_content_no_status_witness : error = error.
Proof.
  apply (no_content_no_status encoding (mkFile [xff; xfe] false (Some 1))).
  - apply encoding_unit_not_empty.
  - reflexivity.
  - reflexivity.
Defined.

(** ** The rewriter for any encoder *)

Lemma firstn_plus {A} (a b : nat) : forall l : list A,
  firstn (a + b) l = firstn a l ++ firstn b (skipn a l).
Proof.
  induction a as [| a IH]; intros l; [reflexivity |].
  destruct l as [| x l]; simpl; [now rewrite firstn_nil | now rewrite IH].
Qed.

Section RewriterAnyEncoder.

Variable enc : Encoder.
Variable buf : buffer.

Local Abbreviation bom := (detectBomFromBuffer enc (slice 0 4 buf)).
Local Abbreviation w := (getBytesPerControlChar enc (Some bom)).
Local Abbreviation n := (getBytesPerBom enc (Some bom)).

(** The loop ends when the control unit is not empty. *)
Lemma convertLoop_returns : forall fuel b lastCR lastWriteIndex out,
  0 < w ->
  length buf - b < fuel ->
  convertLoop enc buf fuel b lastCR lastWriteIndex out <> None.
Proof.
  induction fuel as [| fuel IH]; intros b lcr lw out W F; [lia |].
  cbn [convertLoop].
  destruct (Nat.ltb_spec b (length buf)); [| discriminate].
  destruct (isByteSequenceCR enc _ None); [apply IH; [exact W | lia] |].
  destruct (lcr && isByteSequenceLF enc _ (Some bom));
    [apply IH; [exact W | lia] |].
  destruct (b + w =? length buf); apply IH; (exact W || lia).
Qed.

Lemma length_slice_from (s e : nat) :
  length (slice s e buf) <= e - s /\ length (slice s e buf) <= length buf - s.
Proof. unfold slice. rewrite length_firstn, length_skipn. lia. Qed.

(** What the loop writes is never more than what it has scanned. *)
Lemma convertLoop_written_bound :
  forall fuel b lastCR lastWriteIndex out out',
  convertLoop enc buf fuel b lastCR lastWriteIndex out = Some out' ->
  (length (written out) <= lastWriteIndex /\ lastWriteIndex <= b
   /\ lastWriteIndex <= length buf)
  \/ (length buf <= b /\ length (written out) <= length buf) ->
  length (written out') <= length buf.
Proof.
  induction fuel as [| fuel IH]; intros b lcr lw out out' R I;
    [discriminate |].
  cbn [convertLoop] in R.
  destruct (Nat.ltb_spec b (length buf)) as [Lt | Ge].
  - destruct I as [(I1 & I2 & I3) | [I1 _]]; [| lia].
    destruct (isByteSequenceCR enc _ None).
    { apply IH in R; [exact R |]. left. lia. }
    destruct (lcr && isByteSequenceLF enc _ (Some bom)).
    { apply IH in R; [exact R |]. left. cbn [written write].
      rewrite length_app.
      pose proof (length_slice_from lw (b - w)). lia. }
    destruct (b + w =? length buf) eqn:E.
    + apply Nat.eqb_eq in E.
      apply IH in R; [exact R |]. right. cbn [written end_].
      rewrite length_app.
      pose proof (length_slice_from lw (b + w)). lia.
    + apply IH in R; [exact R |]. left. lia.
  - injection R as <-. destruct I as [(I1 & I2 & I3) | [_ I2]]; lia.
Qed.

(** What the loop writes begins with the BOM. *)
Lemma convertLoop_keeps_bom :
  forall fuel b lastCR lastWriteIndex out out',
  convertLoop enc buf fuel b lastCR lastWriteIndex out = Some out' ->
  n <= b ->
  (lastCR = true -> n + w <= b) ->
  (lastWriteIndex = 0 /\ written out = [])
  \/ (exists t, written out = firstn n buf ++ t) ->
  written out' = [] \/ exists t, written out' = firstn n buf ++ t.
Proof.
  assert (P : forall e, n <= e ->
                exists t, slice 0 e buf = firstn n buf ++ t).
  { intros e L. exists (firstn (e - n) (skipn n buf)).
    unfold slice. simpl skipn. rewrite Nat.sub_0_r.
    replace e with (n + (e - n)) at 1 by lia.
    apply firstn_plus. }
  induction fuel as [| fuel IH]; intros b lcr lw out out' R B C I;
    [discriminate |].
  cbn [convertLoop] in R.
  destruct (Nat.ltb_spec b (length buf)) as [Lt | Ge].
  - destruct (isByteSequenceCR enc _ None).
    { apply IH in R; [exact R | lia | intros _; lia | exact I]. }
    destruct (lcr && isByteSequenceLF enc _ (Some bom)) eqn:T.
    { apply andb_true_iff in T as [-> _]. specialize (C eq_refl).
      apply IH in R; [exact R | lia | discriminate |].
      right. cbn [written write].
      destruct I as [[-> ->] | [t ->]].
      - destruct (P (b - w)) as [t ->]; [lia |]. now exists t.
      - rewrite <- app_assoc. now eexists. }
    destruct (b + w =? length buf).
    + apply IH in R; [exact R | lia | discriminate |].
      right. cbn [written end_].
      destruct I as [[-> ->] | [t ->]].
      * destruct (P (b + w)) as [t ->]; [lia |]. now exists t.
      * rewrite <- app_assoc. now eexists.
    + apply IH in R; [exact R | lia | discriminate | exact I].
  - injection R as <-.
    destruct I as [[_ ->] | I]; [now left | now right].
Qed.

End RewriterAnyEncoder.

(** X7. The rewrite of every content ends within the bound of the embedding,
    for any encoder whose control units are not empty. *)
Theorem rewrite_returns (enc : Encoder) (buf : buffer) :
  0 < getBytesPerControlChar enc
        (Some (detectBomFromBuffer enc (slice 0 4 buf))) ->
  exists out, convertFileFromDosToUnix enc buf = Some out.
Proof.
  intros W.
  destruct (convertFileFromDosToUnix enc buf) as [out |] eqn:R;
    [now exists out |].
  exfalso. revert R. unfold convertFileFromDosToUnix.
  apply convertLoop_returns; [exact W | lia].
Qed.

Lemma rewrite_returns_witness :
  exists out,
    convertFileFromDosToUnix encoding
      [xff; xfe; x0d; x00; x0a; x00; x61] = Some out.
Proof.
  apply (rewrite_returns encoding [xff; xfe; x0d; x00; x0a; x00; x61]).
  apply encoding_unit_not_empty.
Defined.

(** X8. The rewrite never writes more bytes than the file had, for any encoder
    and any content. *)
Theorem rewrite_never_longer (enc : Encoder) (buf : buffer) (out : WriteStream) :
  convertFileFromDosToUnix enc buf = Some out ->
  length (written out) <= length buf.
Proof.
  unfold convertFileFromDosToUnix. intros R.
  apply convertLoop_written_bound in R; [exact R |].
  cbn [written createWriteStream length].
  destruct (Nat.le_gt_cases
              (getBytesPerBom enc
                 (Some (detectBomFromBuffer enc (slice 0 4 buf))))
              (length buf)) as [L | L].
  - left. lia.
  - right. lia.
Qed.

Lemma rewrite_never_longer_witness :
  length (written (mkStream [x61] false)) <= length [x61; x0d; x0a].
Proof.
  apply (rewrite_never_longer encoding [x61; x0d; x0a]). reflexivity.
Defined.

(** X9. What the rewrite has written is empty or begins with the BOM of the
    content, its first [getBytesPerBom] bytes, for any encoder. *)
Theorem rewrite_keeps_bom (enc : Encoder) (buf : buffer) (out : WriteStream) :
  convertFileFromDosToUnix enc buf = Some out ->
  written out = []
  \/ exists t,
       written out =
       firstn (getBytesPerBom enc
                 (Some (detectBomFromBuffer enc (slice 0 4 buf)))) buf ++ t.
Proof.
  unfold convertFileFromDosToUnix. intros R.
  apply convertLoop_keeps_bom in R; [exact R | lia | discriminate |].
  left. now split.
Qed.

Lemma rewrite_keeps_bom_witness :
  written (mkStream [xef; xbb; xbf; x61; x0a; x62] true) = []
  \/ exists t,
       written (mkStream [xef; xbb; xbf; x61; x0a; x62] true)
       = firstn 3 [xef; xbb; xbf; x61; x0d; x0a; x62] ++ t.
Proof.
  apply (rewrite_keeps_bom encoding [xef; xbb; xbf; x61; x0d; x0a; x62]).
  reflexivity.
Defined.

(** ** The rewriter for one-byte control units: when the stream is ended *)

Lemma properEnd_cons (c : bool) (x : byte) (l : buffer) :
  l <> [] -> properEnd c (x :: l) = properEnd (isCRbyte x) l.
Proof. destruct l; [congruence | reflexivity]. Qed.

Lemma properEnd_elim (l : buffer) : forall lastCR : bool,
  properEnd lastCR l = true ->
  l <> [] /\ ~ EndsWith [x0d] l /\ ~ EndsWith [x0d; x0a] l
  /\ (lastCR = true -> l <> [x0a]).
Proof.
  induction l as [| x l IH]; intros c P; [discriminate |].
  destruct l as [| y l].
  - cbn [properEnd] in P. apply andb_true_iff in P as [P1 P2].
    repeat split.
    + discriminate.
    + intros [pre E]. destruct pre as [| a [| b pre]]; try discriminate.
      injection E as ->. discriminate.
    + intros [pre E]. destruct pre as [| a [| b pre]]; discriminate.
    + intros -> [= ->]. discriminate.
  - rewrite properEnd_cons in P by discriminate.
    destruct (IH _ P) as (_ & I1 & I2 & I3).
    repeat split.
    + discriminate.
    + intros [pre E]. destruct pre as [| a pre]; [discriminate |].
      injection E as -> E. apply I1. now exists pre.
    + intros [pre E]. destruct pre as [| a pre].
      * injection E as -> -> ->. now apply I3.
      * injection E as -> E. apply I2. now exists pre.
    + intros _. discriminate.
Qed.

Section RewriterEnds.

Variable buf : buffer.

Hypothesis one_byte :
  getBytesPerControlChar encoding
    (Some (detectBomFromBuffer encoding (slice 0 4 buf))) = 1.

(** [outFile.end] is called exactly when the last unit is one at which
    the loop flushes. *)
Lemma convertLoop_finished (rest : buffer) :
  forall (done : buffer) (lastCR : bool) (lastWriteIndex : nat)
         (out : WriteStream) (fuel : nat),
  buf = done ++ rest ->
  length rest < fuel ->
  exists out',
    convertLoop encoding buf fuel (length done) lastCR lastWriteIndex out
    = Some out'
    /\ finished out' = finished out || properEnd lastCR rest.
Proof.
  induction rest as [| x rest IH]; intros done lcr lw out fuel E F.
  - destruct fuel as [| fuel]; [simpl in F; lia |].
    exists out. split.
    + apply (convertLoop_exit buf one_byte). rewrite E, app_nil_r. lia.
    + simpl. now rewrite orb_false_r.
  - destruct fuel as [| fuel]; [lia |]. simpl in F.
    rewrite (convertLoop_round buf one_byte fuel done x rest lcr lw out E).
    assert (E' : buf = (done ++ [x]) ++ rest) by now rewrite <- app_assoc.
    assert (LS : length (done ++ [x]) = S (length done))
      by (rewrite length_app; simpl; lia).
    rewrite <- LS.
    destruct (isCRbyte x) eqn:C.
    + destruct (IH (done ++ [x]) true lw out fuel E') as (o & R & Fo);
        [lia |].
      exists o. split; [exact R |]. rewrite Fo.
      destruct rest as [| y rest].
      * cbn [properEnd]. now rewrite C.
      * rewrite (properEnd_cons lcr) by discriminate. now rewrite C.
    + destruct (lcr && isLFbyte x) eqn:CL.
      * destruct (IH (done ++ [x]) false (length done)
                     (write (slice lw (length done - 1) buf) out) fuel E')
          as (o & R & Fo); [lia |].
        rewrite LS in R |- *.
        exists o. split; [exact R |]. rewrite Fo. cbn [finished write].
        destruct rest as [| y rest].
        -- cbn [properEnd]. now rewrite C, CL.
        -- rewrite (properEnd_cons lcr) by discriminate. now rewrite C.
      * destruct rest as [| y rest].
        -- cbn [length Nat.eqb].
           destruct (IH (done ++ [x]) false lw
                        (end_ (slice lw (length (done ++ [x])) buf) out)
                        fuel E') as (o & R & Fo); [simpl in *; lia |].
           exists o. split; [exact R |]. rewrite Fo.
           cbn [finished end_ properEnd]. rewrite C, CL.
           now destruct (finished out).
        -- cbn [length Nat.eqb].
           destruct (IH (done ++ [x]) false lw out fuel E')
             as (o & R & Fo); [lia |].
           exists o. split; [exact R |]. rewrite Fo.
           rewrite (properEnd_cons lcr) by discriminate. now rewrite C.
Qed.

End RewriterEnds.

(** With the spec's encoder and one-byte units the BOM is part of the
    content. *)
Lemma one_byte_bom_present (content : buffer) :
  getBytesPerControlChar encoding
    (Some (detectBomFromBuffer encoding (slice 0 4 content))) = 1 ->
  getBytesPerBom encoding
    (Some (detectBomFromBuffer encoding (slice 0 4 content)))
  <= length content.
Proof.
  intros W. destruct (one_byte_variant _ W) as [B | B]; rewrite B.
  - cbn. lia.
  - rewrite (detect_utf8_shape content B). cbn. lia.
Qed.

(** X10. For a file without BOM or with the UTF-8 BOM the rewrite ends its
    output stream, which is what lets [done] be called, exactly when the
    content after the BOM is not empty and ends neither with a CR nor with
    a CRLF pair. *)
Theorem rewrite_ends_stream_iff (content : buffer) :
  let f := plain content in
  getBytesPerControlChar encoding (detectBom encoding f) = 1 ->
  exists out,
    convertFileFromDosToUnix encoding content = Some out
    /\ (finished out = true <->
        payload encoding f <> []
        /\ ~ EndsWith [x0d] (payload encoding f)
        /\ ~ EndsWith [x0d; x0a] (payload encoding f)).
Proof.
  intros f W.
  set (bom := detectBomFromBuffer encoding (slice 0 4 content)) in *.
  set (n := getBytesPerBom encoding (Some bom)).
  change (detectBom encoding f) with (Some bom) in *.
  change (payload encoding f) with (skipn n content).
  pose proof (one_byte_bom_present content W) as L. fold bom in L. fold n in L.
  destruct (convertLoop_finished content W (skipn n content)
              (firstn n content) false 0 createWriteStream
              (S (length content)))
    as (out & R & Fo).
  - now rewrite firstn_skipn.
  - rewrite length_skipn. lia.
  - rewrite length_firstn in R.
    replace (Nat.min n (length content)) with n in R by lia.
    exists out. split; [exact R |].
    rewrite Fo. cbn [finished createWriteStream orb]. split.
    + intros P. apply properEnd_elim in P. tauto.
    + intros (P1 & P2 & P3). apply properEnd_intro; auto. discriminate.
Qed.

Lemma rewrite_ends_stream_iff_witness :
  exists out,
    convertFileFromDosToUnix encoding [x61; x0d; x0a] = Some out
    /\ (finished out = true <->
        payload encoding (plain [x61; x0d; x0a]) <> []
        /\ ~ EndsWith [x0d] (payload encoding (plain [x61; x0d; x0a]))
        /\ ~ EndsWith [x0d; x0a] (payload encoding (plain [x61; x0d; x0a]))).
Proof.
  apply (rewrite_ends_stream_iff [x61; x0d; x0a]). reflexivity.
Defined.

(** ** The rewriter for one-byte control units: what is written *)

Lemma countCRLF_unfold x y (l : buffer) :
  countCRLF (x :: y :: l) =
  (if isCRbyte x && isLFbyte y then 1 else 0) + countCRLF (y :: l).
Proof. reflexivity. Qed.

Lemma strip_without_pair (l : buffer) : countCRLF l = 0 -> strip l = l.
Proof.
  induction l as [| x l IH]; intros Z; [reflexivity |].
  destruct l as [| y l]; [reflexivity |].
  rewrite countCRLF_unfold in Z. rewrite strip_unfold.
  destruct (isCRbyte x && isLFbyte y); [discriminate |].
  rewrite IH by exact Z. reflexivity.
Qed.

Lemma hasCRLF_units_count bom (l : buffer) :
  getBytesPerControlChar encoding (Some bom) = 1 ->
  hasCRLF encoding (Some bom) (unitsOfBytes l) = (0 <? countCRLF l).
Proof.
  intros W. induction l as [| x l IH]; [reflexivity |].
  destruct l as [| y l]; [reflexivity |].
  change (unitsOfBytes (x :: y :: l)) with ([x] :: unitsOfBytes (y :: l)).
  rewrite hasCRLF_cons, IH, countCRLF_unfold.
  change (unitsOfBytes (y :: l)) with ([y] :: unitsOfBytes l).
  cbv beta iota. rewrite isCR_unit, isLF_unit by exact W.
  destruct (isCRbyte x && isLFbyte y); [reflexivity |].
  reflexivity.
Qed.

(** What a status [good] or [bad] says about a file with one-byte units. *)
Lemma classify_one_byte (content : buffer) (s : Status) :
  let f := plain content in
  getBytesPerControlChar encoding (detectBom encoding f) = 1 ->
  classify encoding f = Some (Done s) ->
  s = good \/ s = bad ->
  payload encoding f <> []
  /\ s = if 0 <? countCRLF (payload encoding f) then bad else good.
Proof.
  intros f W C S.
  set (bom := detectBomFromBuffer encoding (slice 0 4 content)) in *.
  change (detectBom encoding f) with (Some bom) in *.
  assert (NE : payload encoding f <> []).
  { intros E.
    destruct (classify_no_content encoding f (encoding_unit_not_empty _) E)
      as [P | P]; rewrite P in C; [discriminate |].
    injection C as <-. destruct S; discriminate. }
  split; [exact NE |].
  assert (B : Forall (fun x => isBinary encoding (Some bom) [x] = false)
                     (payload encoding f)).
  { destruct (first_true (fun x => isBinary encoding (Some bom) [x])
                         (payload encoding f))
      as [F | (pre & z & rest & E & F & T)]; [exact F |].
    exfalso.
    destruct (determine_binary encoding f (unitsOfBytes pre) [z] rest)
      as (r & R & _).
    - apply encoding_unit_not_empty.
    - reflexivity.
    - rewrite concat_unitsOfBytes. exact E.
    - now apply fullUnit_unitsOfBytes.
    - apply Forall_map. exact F.
    - unfold fullUnit. cbn [length]. symmetry. exact W.
    - exact T.
    - unfold classify in C. rewrite R in C. injection C as <-.
      destruct S; discriminate. }
  destruct (determine_units encoding f (unitsOfBytes (payload encoding f)))
    as (r & R & _).
  - apply encoding_unit_not_empty.
  - reflexivity.
  - now rewrite concat_unitsOfBytes.
  - intros E. apply NE. destruct (payload encoding f); [reflexivity |].
    discriminate.
  - now apply fullUnit_unitsOfBytes.
  - apply Forall_map. exact B.
  - unfold classify in C. rewrite R in C. injection C as <-.
    change (detectBom encoding f) with (Some bom).
    rewrite (scanFrom_hasCRLF encoding (Some bom)
               (encoding_cr_is_not_lf (Some bom))).
    rewrite hasCRLF_units_count by exact W. reflexivity.
Qed.

Lemma ends_with_pair_counts (l : buffer) :
  EndsWith [x0d; x0a] l -> 0 < countCRLF l.
Proof.
  intros [pre ->]. induction pre as [| a pre IH]; [simpl; lia |].
  destruct pre as [| b pre].
  - change (([a] ++ [x0d; x0a])) with (a :: x0d :: [x0a]).
    rewrite countCRLF_unfold. simpl. lia.
  - change ((a :: b :: pre) ++ [x0d; x0a])
      with (a :: b :: (pre ++ [x0d; x0a])).
    rewrite countCRLF_unfold.
    change (b :: pre ++ [x0d; x0a]) with ((b :: pre) ++ [x0d; x0a]).
    lia.
Qed.

(** X11. For a file without BOM or with the UTF-8 BOM whose content after the
    BOM is not empty and ends neither with a CR nor with a CRLF pair, the
    rewrite writes the BOM and then the content without each CR that an LF
    follows immediately, in the original order, and ends the stream. *)
Theorem rewrite_drops_cr_before_lf (content : buffer) :
  let f := plain content in
  let n := getBytesPerBom encoding (detectBom encoding f) in
  getBytesPerControlChar encoding (detectBom encoding f) = 1 ->
  payload encoding f <> [] ->
  ~ EndsWith [x0d] (payload encoding f) ->
  ~ EndsWith [x0d; x0a] (payload encoding f) ->
  convertFileFromDosToUnix encoding content =
  Some (mkStream (firstn n content ++ strip (payload encoding f)) true).
Proof.
  intros f n W NE E1 E2.
  apply (convert_strips content W).
  apply properEnd_intro; auto. discriminate.
Qed.

Lemma rewrite_drops_cr_before_lf_witness :
  convertFileFromDosToUnix encoding
    [xef; xbb; xbf; x0d; x0a; x0d; x61; x0a; x0d; x0a; x62]
  = Some (mkStream [xef; xbb; xbf; x0a; x0d; x61; x0a; x0a; x62] true).
Proof.
  apply (rewrite_drops_cr_before_lf
           [xef; xbb; xbf; x0d; x0a; x0d; x61; x0a; x0d; x0a; x62]).
  - reflexivity.
  - discriminate.
  - apply (proj1 (proj2 (properEnd_elim [x0d; x0a; x0d; x61; x0a; x0d; x0a; x62] false eq_refl))).
  - apply (proj1 (proj2 (proj2 (properEnd_elim [x0d; x0a; x0d; x61; x0a; x0d; x0a; x62] false eq_refl)))).
Defined.

(** X12. The byte-length law, under the same conditions: the rewritten content
    is shorter than the content by one byte for each CRLF pair. *)
Theorem rewrite_length_law (content : buffer) :
  let f := plain content in
  getBytesPerControlChar encoding (detectBom encoding f) = 1 ->
  payload encoding f <> [] ->
  ~ EndsWith [x0d] (payload encoding f) ->
  ~ EndsWith [x0d; x0a] (payload encoding f) ->
  exists out,
    rewritten encoding content = Some out
    /\ length out + countCRLF (payload encoding f) = length content.
Proof.
  intros f W NE E1 E2.
  assert (P : properEnd false (payload encoding f) = true)
    by (apply properEnd_intro; auto; discriminate).
  unfold rewritten. rewrite (convert_strips content W P).
  eexists. split; [reflexivity |].
  cbn [written]. rewrite length_app.
  pose proof (length_strip (payload encoding f)) as LS.
  change (payload encoding f)
    with (skipn (getBytesPerBom encoding
                   (Some (detectBomFromBuffer encoding (slice 0 4 content))))
                content) in *.
  pose proof (one_byte_bom_present content W) as LB.
  rewrite length_firstn. rewrite length_skipn in LS. lia.
Qed.

Lemma rewrite_length_law_witness :
  exists out,
    rewritten encoding [x61; x0d; x0a; x62; x0d; x0a; x63] = Some out
    /\ length out
       + countCRLF (payload encoding
                      (plain [x61; x0d; x0a; x62; x0d; x0a; x63]))
       = length [x61; x0d; x0a; x62; x0d; x0a; x63].
Proof.
  apply (rewrite_length_law [x61; x0d; x0a; x62; x0d; x0a; x63]).
  - reflexivity.
  - discriminate.
  - apply (proj1 (proj2 (properEnd_elim [x61; x0d; x0a; x62; x0d; x0a; x63] false eq_refl))).
  - apply (proj1 (proj2 (proj2 (properEnd_elim [x61; x0d; x0a; x62; x0d; x0a; x63] false eq_refl)))).
Defined.

(** ** The classifier and the rewriter together *)

(** X13. A file with one-byte units that is classified [good] and does not end
    with a CR is rewritten to itself. *)
Theorem good_file_rewrite_is_noop (content : buffer) :
  let f := plain content in
  getBytesPerControlChar encoding (detectBom encoding f) = 1 ->
  classify encoding f = Some (Done good) ->
  ~ EndsWith [x0d] (payload encoding f) ->
  convertFileFromDosToUnix encoding content = Some (mkStream content true).
Proof.
  intros f W C E1.
  destruct (classify_one_byte content good W C (or_introl eq_refl))
    as [NE S].
  fold f in NE, S.
  assert (Z : countCRLF (payload encoding f) = 0).
  { destruct (Nat.ltb_spec 0 (countCRLF (payload encoding f)));
      [discriminate | lia]. }
  assert (P : properEnd false (payload encoding f) = true).
  { apply properEnd_intro; auto; [| discriminate].
    intros E2. apply ends_with_pair_counts in E2. lia. }
  rewrite (convert_strips content W P).
  change (skipn _ content) with (payload encoding f).
  rewrite (strip_without_pair _ Z).
  unfold payload. now rewrite firstn_skipn.
Qed.

Lemma good_file_rewrite_is_noop_witness :
  convertFileFromDosToUnix encoding [x61; x0d; x62; x0a]
  = Some (mkStream [x61; x0d; x62; x0a] true).
Proof.
  apply (good_file_rewrite_is_noop [x61; x0d; x62; x0a]).
  - reflexivity.
  - reflexivity.
  - apply (proj1 (proj2 (properEnd_elim [x61; x0d; x62; x0a] false eq_refl))).
Defined.

(** X14. A file with one-byte units that is classified [bad] and ends neither
    with a CR nor with a CRLF pair is rewritten to a strictly shorter
    content. *)
Theorem bad_file_rewrite_is_shorter (content : buffer) :
  let f := plain content in
  getBytesPerControlChar encoding (detectBom encoding f) = 1 ->
  classify encoding f = Some (Done bad) ->
  ~ EndsWith [x0d] (payload encoding f) ->
  ~ EndsWith [x0d; x0a] (payload encoding f) ->
  exists out,
    convertFileFromDosToUnix encoding content = Some (mkStream out true)
    /\ length out < length content.
Proof.
  intros f W C E1 E2.
  destruct (classify_one_byte content bad W C (or_intror eq_refl))
    as [NE S].
  fold f in NE, S.
  assert (Z : 0 < countCRLF (payload encoding f)).
  { destruct (Nat.ltb_spec 0 (countCRLF (payload encoding f)));
      [assumption | discriminate]. }
  assert (P : properEnd false (payload encoding f) = true)
    by (apply properEnd_intro; auto; discriminate).
  rewrite (convert_strips content W P).
  eexists. split; [reflexivity |].
  rewrite length_app.
  pose proof (length_strip (payload encoding f)) as LS.
  change (payload encoding f)
    with (skipn (getBytesPerBom encoding
                   (Some (detectBomFromBuffer encoding (slice 0 4 content))))
                content) in *.
  pose proof (one_byte_bom_present content W) as LB.
  rewrite length_firstn. rewrite length_skipn in LS. lia.
Qed.

Lemma bad_file_rewrite_is_shorter_witness :
  exists out,
    convertFileFromDosToUnix encoding [x61; x0d; x0a; x62]
    = Some (mkStream out true)
    /\ length out < length [x61; x0d; x0a; x62].
Proof.
  apply (bad_file_rewrite_is_shorter [x61; x0d; x0a; x62]).
  - reflexivity.
  - reflexivity.
  - apply (proj1 (proj2 (properEnd_elim [x61; x0d; x0a; x62] false eq_refl))).
  - apply (proj1 (proj2 (proj2 (properEnd_elim [x61; x0d; x0a; x62] false eq_refl)))).
Defined.

(** ** Rewriting twice *)

Lemma properEnd_strip (l : buffer) : forall c : bool,
  properEnd c l = true -> properEnd c (strip l) = true.
Proof.
  induction l as [| x l IH]; intros c P; [exact P |].
  destruct l as [| y l]; [exact P |].
  rewrite properEnd_cons in P by discriminate.
  rewrite strip_unfold.
  destruct (isCRbyte x && isLFbyte y) eqn:D.
  - apply andb_true_iff in D as [Dx Dy]. rewrite Dx in P.
    apply isLFbyte_eq in Dy as ->.
    destruct l as [| z l]; [discriminate P |].
    rewrite properEnd_cons in P by discriminate.
    specialize (IH true).
    rewrite properEnd_cons in IH by discriminate.
    specialize (IH P).
    rewrite strip_keep in IH |- * by reflexivity.
    assert (N : strip (z :: l) <> []) by (apply strip_nonempty; discriminate).
    rewrite properEnd_cons in IH |- * by exact N. exact IH.
  - assert (N : strip (y :: l) <> []) by (apply strip_nonempty; discriminate).
    rewrite properEnd_cons by exact N. now apply IH.
Qed.

Lemma countCRLF_strip (l : buffer) :
  ~ CRbeforeCRLF l -> countCRLF (strip l) = 0.
Proof.
  intros N.
  pose proof (hasCRLF_strip BomNone l eq_refl N) as H.
  rewrite hasCRLF_units_count in H by reflexivity.
  destruct (Nat.ltb_spec 0 (countCRLF (strip l))); [discriminate | lia].
Qed.

(** X15. Rewriting the rewritten content changes nothing: for a file with
    one-byte units whose content after the BOM is not empty, ends neither
    with a CR nor with a CRLF pair and has no CRLF pair immediately after
    another CR, the rewrite of what the rewrite has written is that
    content again. *)
Theorem rewrite_twice (content : buffer) :
  let f := plain content in
  getBytesPerControlChar encoding (detectBom encoding f) = 1 ->
  payload encoding f <> [] ->
  ~ EndsWith [x0d] (payload encoding f) ->
  ~ EndsWith [x0d; x0a] (payload encoding f) ->
  ~ CRbeforeCRLF (payload encoding f) ->
  exists out,
    convertFileFromDosToUnix encoding content = Some (mkStream out true)
    /\ convertFileFromDosToUnix encoding out = Some (mkStream out true).
Proof.
  intros f W NE E1 E2 N.
  set (bom := detectBomFromBuffer encoding (slice 0 4 content)) in *.
  set (n := getBytesPerBom encoding (Some bom)).
  change (detectBom encoding f) with (Some bom) in *.
  change (payload encoding f) with (skipn n content) in *.
  assert (P : properEnd false (skipn n content) = true)
    by (apply properEnd_intro; auto; discriminate).
  pose proof (one_byte_bom_present content W) as L. fold bom in L. fold n in L.
  exists (firstn n content ++ strip (skipn n content)). split.
  - now apply convert_strips.
  - set (out := firstn n content ++ strip (skipn n content)).
    assert (D : detectBomFromBuffer encoding (slice 0 4 out) = bom)
      by now apply detect_rewritten.
    assert (S1 : skipn n out = strip (skipn n content)).
    { unfold out. rewrite skipn_app, length_firstn.
      replace (Nat.min n (length content)) with n by lia.
      rewrite Nat.sub_diag, skipn_firstn_comm, Nat.sub_diag. reflexivity. }
    assert (F1 : firstn n out = firstn n content).
    { unfold out. rewrite firstn_app, length_firstn.
      replace (Nat.min n (length content)) with n by lia.
      rewrite Nat.sub_diag, firstn_firstn, Nat.min_id. simpl.
      apply app_nil_r. }
    pose proof (convert_strips out) as H. cbv zeta in H.
    rewrite D in H. fold n in H. rewrite S1, F1 in H.
    rewrite H.
    + rewrite (strip_without_pair (strip (skipn n content)))
        by now apply countCRLF_strip.
      reflexivity.
    + exact W.
    + now apply properEnd_strip.
Qed.

Lemma rewrite_twice_witness :
  exists out,
    convertFileFromDosToUnix encoding [x61; x0d; x0a; x0d; x62]
    = Some (mkStream out true)
    /\ convertFileFromDosToUnix encoding out = Some (mkStream out true).
Proof.
  apply (rewrite_twice [x61; x0d; x0a; x0d; x62]).
  - reflexivity.
  - discriminate.
  - apply (proj1 (proj2 (properEnd_elim [x61; x0d; x0a; x0d; x62]
                           false eq_refl))).
  - apply (proj1 (proj2 (proj2 (properEnd_elim [x61; x0d; x0a; x0d; x62]
                                  false eq_refl)))).
  - intros (pre & post & E).
    do 6 (destruct pre as [| ? pre]; [discriminate E |]).
    discriminate E.
Defined.

Lemma classify_unreadable_witness :
  classify encoding (mkFile [x61; x0d; x0a] false (Some 0))
  = Some (Done error).
Proof.
  apply (classify_unreadable encoding (mkFile [x61; x0d; x0a] false (Some 0))).
  reflexivity.
Defined.

(** ** The batch pipeline *)

Module BatchFacts.

Import Strings.String.
Import Batch.
Local Open Scope string_scope.

Lemma all_map_resolved {A B : Type} (f : A -> Promise B) (g : A -> B) :
  forall l : list A,
  (forall x, In x l -> f x = Some (g x)) ->
  all (map f l) = Some (map g l).
Proof.
  induction l as [| x l IH]; intros H; [reflexivity |].
  cbn [map all]. rewrite (H x) by now left.
  rewrite IH by (intros y I; apply H; now right). reflexivity.
Qed.


(** The paths that are handed to the conversion step. *)
Lemma needsFixing_paths (f : string -> Promise Status) :
  forall (l : list string) (safetyList : list Status),
  all (map f l) = Some safetyList ->
  map Pipeline.path
      (filter (fun fileInfo => Status_eqb (Pipeline.status fileInfo) bad)
              (map (fun ps => Pipeline.mkInfo (fst ps) (snd ps))
                   (combine l safetyList)))
  = filter (fun p => match f p with
                     | Some s => Status_eqb s bad
                     | None => false
                     end) l.
Proof.
  induction l as [| p l IH]; intros vs H; [reflexivity |].
  cbn [map all] in H.
  destruct (f p) as [s |] eqn:Fp; [| discriminate].
  destruct (all (map f l)) as [vs' |] eqn:R; [| discriminate].
  injection H as <-.
  cbn [combine map filter fst snd Pipeline.status]. rewrite Fp.
  destruct (Status_eqb s bad); cbn [map Pipeline.path];
    now rewrite (IH vs' eq_refl).
Qed.

Lemma status_promise enc disk p s :
  determineProcessingStatusOfFileP enc disk p = Some s <->
  classify enc (fileAt disk p) = Some (Done s).
Proof.
  unfold determineProcessingStatusOfFileP.
  destruct (classify enc (fileAt disk p)) as [[s' |] |]; split;
    congruence.
Qed.

Lemma Status_eqb_bad s : Status_eqb s bad = true <-> s = bad.
Proof. destruct s; simpl; split; congruence. Qed.

(** A conversion is started for files classified [bad] only. *)
Lemma started_only_for_bad enc disk fileList p c :
  In (p, c) (conversions (dos2unix enc disk fileList)) ->
  In p fileList
  /\ classify enc (fileAt disk p) = Some (Done bad)
  /\ c = convert enc disk p.
Proof.
  unfold dos2unix.
  destruct (all (map (determineProcessingStatusOfFileP enc disk) fileList))
    as [vs |] eqn:A; [| intros []].
  cbn [conversions]. rewrite (needsFixing_paths _ _ _ A).
  intros I. apply in_map_iff in I as (q & E & I). injection E as -> <-.
  apply filter_In in I as [I T].
  destruct (determineProcessingStatusOfFileP enc disk p) as [s |] eqn:S;
    [| discriminate].
  apply Status_eqb_bad in T as ->. apply status_promise in S.
  repeat split; assumption.
Qed.

(** X16. The batch starts a conversion only for a path of the file list whose
    file was classified [bad]; files with any other status, and files whose
    classification did not complete, are never opened for writing. *)
Theorem only_bad_files_are_converted (enc : Encoder) (disk : Disk)
        (fileList : list string) (p : string) (c : Conversion) :
  In (p, c) (conversions (dos2unix enc disk fileList)) ->
  In p fileList /\ classify enc (fileAt disk p) = Some (Done bad).
Proof.
  intros I. apply started_only_for_bad in I. tauto.
Qed.

(** X18. A file with a binary-indicating unit is never converted, whatever
    follows the unit. *)
Theorem binary_file_is_never_converted (enc : Encoder) (disk : Disk)
        (fileList : list string) (p : string)
        (pre : list buffer) (u rest : buffer) :
  let f := fileAt disk p in
  let bom := detectBom enc f in
  0 < getBytesPerControlChar enc bom ->
  readFailsAt f = None ->
  payload enc f = (List.concat pre ++ u ++ rest)%list ->
  Forall (fullUnit enc bom) pre ->
  Forall (fun v => isBinary enc bom v = false) pre ->
  fullUnit enc bom u ->
  isBinary enc bom u = true ->
  ~ In p (map fst (conversions (dos2unix enc disk fileList))).
Proof.
  intros f bom W Hok E F B Fu Bu I.
  apply in_map_iff in I as ([q c] & Eq & I). cbn [fst] in Eq. subst q.
  apply started_only_for_bad in I as (_ & C & _).
  destruct (determine_binary enc f pre u rest W Hok E F B Fu Bu)
    as (r & R & _).
  unfold classify in C. fold f in C. rewrite R in C. discriminate C.
Qed.



Lemma only_bad_files_are_converted_witness :
  In "dos.txt" ["unix.txt"; "dos.txt"; "data.bin"]
  /\ classify encoding (fileAt exampleDisk "dos.txt") = Some (Done bad).
Proof.
  apply (only_bad_files_are_converted encoding exampleDisk
           ["unix.txt"; "dos.txt"; "data.bin"] "dos.txt"
           (Opened (mkStream [x61; x0a; x62] true))).
  vm_compute. left. reflexivity.
Defined.

Lemma binary_file_is_never_converted_witness :
  ~ In "data.bin"
       (map fst (conversions (dos2unix encoding exampleDisk
                                       ["unix.txt"; "dos.txt"; "data.bin"]))).
Proof.
  apply (binary_file_is_never_converted encoding exampleDisk
           ["unix.txt"; "dos.txt"; "data.bin"] "data.bin"
           [] [x00] [x0d; x0a; x61]).
  - apply encoding_unit_not_empty.
  - reflexivity.
  - reflexivity.
  - constructor.
  - constructor.
  - reflexivity.
  - reflexivity.
Defined.


(** X17. When the classification of every file of the list completes, the
    conversions that are started are those of the files classified [bad],
    all of them, in the order of the file list. *)
Theorem bad_files_are_converted_in_order (enc : Encoder) (disk : Disk)
        (fileList : list string) :
  (forall p, In p fileList ->
             exists s, classify enc (fileAt disk p) = Some (Done s)) ->
  map fst (conversions (dos2unix enc disk fileList))
  = filter (fun p => match classify enc (fileAt disk p) with
                     | Some (Done s) => Status_eqb s bad
                     | _ => false
                     end) fileList.
Proof.
  intros H. unfold dos2unix.
  destruct (all (map (determineProcessingStatusOfFileP enc disk) fileList))
    as [vs |] eqn:A.
  - cbn [conversions]. rewrite (needsFixing_paths _ _ _ A).
    rewrite map_map. cbn [fst]. rewrite map_id.
    apply filter_ext. intros p. unfold determineProcessingStatusOfFileP.
    now destruct (classify enc (fileAt disk p)) as [[s |] |].
  - exfalso. clear - H A.
    induction fileList as [| p l IH]; [discriminate A |].
    cbn [map all] in A.
    destruct (H p (or_introl eq_refl)) as [s C].
    unfold determineProcessingStatusOfFileP in A at 1. rewrite C in A.
    destruct (all (map (determineProcessingStatusOfFileP enc disk) l));
      [discriminate A |].
    apply IH; [| reflexivity]. intros q I. apply H. now right.
Qed.

Lemma bad_files_are_converted_in_order_witness :
  map fst (conversions (dos2unix encoding exampleDisk
                                 ["unix.txt"; "dos.txt"; "data.bin"]))
  = filter (fun p => match classify encoding (fileAt exampleDisk p) with
                     | Some (Done s) => Status_eqb s bad
                     | _ => false
                     end) ["unix.txt"; "dos.txt"; "data.bin"].
Proof.
  apply (bad_files_are_converted_in_order encoding exampleDisk
           ["unix.txt"; "dos.txt"; "data.bin"]).
  intros p [<- | [<- | [<- | []]]]; eexists; reflexivity.
Defined.

(** *** Well-formed text files *)

Lemma wellFormed_bom f :
  wellFormed f ->
  detectBom encoding f
  = Some (detectBomFromBuffer encoding (slice 0 4 (bytes f))).
Proof. intros (P & _). unfold detectBom. now rewrite P. Qed.

Lemma not_nul_not_binary bom x :
  getBytesPerControlChar encoding (Some bom) = 1 ->
  x <> x00 -> isBinary encoding (Some bom) [x] = false.
Proof.
  intros W N. destruct (one_byte_variant bom W) as [-> | ->]; cbn;
    rewrite andb_true_r;
    (destruct (Byte.eqb x x00) eqn:E; [| reflexivity]);
    apply byte_dec_bl in E; contradiction.
Qed.

Lemma classify_wellFormed f :
  wellFormed f ->
  classify encoding f
  = Some (Done (if Nat.ltb 0 (countCRLF (payload encoding f)) then bad else good)).
Proof.
  intros WF. pose proof (wellFormed_bom f WF) as D.
  destruct WF as (_ & Hok & W & NE & NB & _ & _).
  rewrite D in W.
  destruct (determine_units encoding f (unitsOfBytes (payload encoding f)))
    as (r & R & _).
  - apply encoding_unit_not_empty.
  - exact Hok.
  - now rewrite concat_unitsOfBytes.
  - intros E. apply NE. destruct (payload encoding f); [reflexivity |].
    discriminate.
  - rewrite D. now apply fullUnit_unitsOfBytes.
  - rewrite D. apply Forall_map. apply Forall_forall. intros x I.
    rewrite Forall_forall in NB. apply not_nul_not_binary; auto.
  - unfold classify. rewrite R, D. cbn [option_map fst].
    rewrite (scanFrom_hasCRLF encoding _ (encoding_cr_is_not_lf _)).
    rewrite hasCRLF_units_count by exact W. reflexivity.
Qed.

Lemma convert_wellFormed disk p :
  wellFormed (fileAt disk p) ->
  readFileFails disk p = false ->
  convert encoding disk p
  = Opened (mkStream (unixContent (fileAt disk p)) true).
Proof.
  intros WF RF. pose proof (wellFormed_bom _ WF) as D.
  destruct WF as (_ & _ & W & NE & _ & E1 & E2).
  unfold convert, unixContent, payload in *. rewrite RF.
  rewrite D in *.
  rewrite (convert_strips (bytes (fileAt disk p)) W); [reflexivity |].
  apply properEnd_intro; auto. discriminate.
Qed.

(** X20. The batch on well-formed text files: when every file of the list is
    read without failure, has one-byte control units, some content, no NUL
    byte and an end that is neither a CR nor a CRLF pair, the batch
    converts exactly the files with a CRLF pair, in the order of the list,
    each to its BOM followed by its content without the CR of each pair,
    and calls [done]. *)
Theorem dos2unix_on_wellFormed_files (disk : Disk) (fileList : list string) :
  (forall p, In p fileList ->
             wellFormed (fileAt disk p) /\ readFileFails disk p = false) ->
  dos2unix encoding disk fileList
  = mkResult
      (map (fun p => (p, Opened (mkStream (unixContent (fileAt disk p)) true)))
           (filter (fun p => Nat.ltb 0 (countCRLF (payload encoding (fileAt disk p))))
                   fileList))
      true.
Proof.
  intros H. unfold dos2unix.
  assert (A : all (map (determineProcessingStatusOfFileP encoding disk)
                       fileList)
              = Some (map (fun p =>
                             if Nat.ltb 0 (countCRLF
                                             (payload encoding (fileAt disk p)))
                             then bad else good) fileList)).
  { apply all_map_resolved. intros p I.
    unfold determineProcessingStatusOfFileP.
    now rewrite (classify_wellFormed _ (proj1 (H p I))). }
  rewrite A. rewrite (needsFixing_paths _ _ _ A).
  assert (F : filter (fun p => match determineProcessingStatusOfFileP
                                       encoding disk p with
                               | Some s => Status_eqb s bad
                               | None => false
                               end) fileList
              = filter (fun p => Nat.ltb 0 (countCRLF
                                        (payload encoding (fileAt disk p))))
                       fileList).
  { apply filter_ext_in. intros p I.
    unfold determineProcessingStatusOfFileP.
    rewrite (classify_wellFormed _ (proj1 (H p I))).
    now destruct (Nat.ltb 0 (countCRLF (payload encoding (fileAt disk p)))). }
  rewrite F.
  assert (M : map (fun filePath => (filePath, convert encoding disk filePath))
                  (filter (fun p => Nat.ltb 0 (countCRLF
                                          (payload encoding (fileAt disk p))))
                          fileList)
              = map (fun p => (p, Opened (mkStream
                                            (unixContent (fileAt disk p))
                                            true)))
                    (filter (fun p => Nat.ltb 0 (countCRLF
                                            (payload encoding (fileAt disk p))))
                            fileList)).
  { apply map_ext_in. intros p I. apply filter_In in I as [I _].
    destruct (H p I) as [WF RF]. now rewrite (convert_wellFormed disk p WF RF). }
  rewrite M. f_equal.
  apply forallb_forall. intros [p c] I.
  apply in_map_iff in I as (q & E & _). injection E as _ <-. reflexivity.
Qed.

Lemma dos2unix_on_wellFormed_files_witness :
  dos2unix encoding exampleDisk ["unix.txt"; "dos.txt"]
  = mkResult [("dos.txt", Opened (mkStream [x61; x0a; x62] true))] true.
Proof.
  apply (dos2unix_on_wellFormed_files exampleDisk ["unix.txt"; "dos.txt"]).
  intros p [<- | [<- | []]]; (split; [| reflexivity]).
  - repeat split; try reflexivity; try discriminate.
    + repeat constructor; discriminate.
    + apply (proj1 (proj2 (properEnd_elim [x61; x0a; x62] false eq_refl))).
    + apply (proj1 (proj2 (proj2 (properEnd_elim [x61; x0a; x62]
                                    false eq_refl)))).
  - repeat split; try reflexivity; try discriminate.
    + repeat constructor; discriminate.
    + apply (proj1 (proj2 (properEnd_elim [x61; x0d; x0a; x62]
                             false eq_refl))).
    + apply (proj1 (proj2 (proj2 (properEnd_elim [x61; x0d; x0a; x62]
                                    false eq_refl)))).
Defined.

End BatchFacts.
